(** * Test Pipeline Generator front end: intake form, coordinator, renderer

    A shallow embedding of the three React components of the front end

    - [frontend/src/components/RepositoryForm.jsx]  (module [RepositoryForm])
    - [frontend/src/App.jsx]                        (module [App])
    - [frontend/src/components/PipelineVisualizer.jsx] (module [Visualizer])

    together with the fragment of JavaScript they rely on: JSON values,
    truthiness, [||], member access, optional chaining and
    [try]/[catch]/[finally]. *)

From Stdlib Require Import String Ascii List ZArith Bool Lia.
Import ListNotations.
Set Warnings "-register-all".
Local Open Scope string_scope.
Local Open Scope list_scope.

(* ===================================================================== *)
(** ** JavaScript values *)
(* ===================================================================== *)

Module Js.

(** The values that reach the components: what [JSON.parse] produces, plus
    [undefined].  A number is kept as an integer (numbers with a fraction are
    left out); the components only test numbers for being zero ([!x],
    [x || y]) or positive ([x > 0]).  An object is the association list of its
    own properties, the first binding of a key being the property. *)
Inductive JsVal : Type :=
| JUndefined
| JNull
| JBool (b : bool)
| JNum (n : Z)
| JStr (s : string)
| JArr (items : list JsVal)
| JObj (fields : list (string * JsVal)).

(** ToBoolean: [undefined], [null], [false], [0] and [''] are falsy, every
    array and object is truthy. *)
Definition truthy (v : JsVal) : bool :=
  match v with
  | JUndefined | JNull => false
  | JBool b => b
  | JNum n => negb (Z.eqb n 0)
  | JStr s => negb (String.eqb s "")
  | JArr _ | JObj _ => true
  end.

Definition nullish (v : JsVal) : bool :=
  match v with
  | JUndefined | JNull => true
  | _ => false
  end.

(** [a || b] *)
Definition js_or (a b : JsVal) : JsVal := if truthy a then a else b.

Fixpoint assoc {A : Type} (k : string) (l : list (string * A)) : option A :=
  match l with
  | [] => None
  | (k', v) :: rest => if String.eqb k k' then Some v else assoc k rest
  end.

(** The outcome of evaluating an expression or running a statement: a value,
    or a thrown exception. *)
Inductive Completion (A : Type) : Type :=
| Normal (a : A)
| Throw (e : JsVal).
Arguments Normal {A} a.
Arguments Throw {A} e.

(** A [TypeError] as a caught value.  The text of the message depends on the
    engine. *)
Definition TypeError (msg : string) : JsVal := JObj [("message", JStr msg)].

(** [v.name], for the property names written in the components' source
    ([response], [data], [detail], [message], [language], [framework],
    [stages], [summary], [recommendations], [length], [type], [name],
    [description], [commands], [tools], [estimatedDuration]).  Reading a
    property of [undefined] or [null] throws; a primitive or an array has none
    of these properties, except [length] on strings and arrays; an object
    inherits none of them from [Object.prototype].  The length of a string is
    counted in the characters of its representation here; the components only
    compare it with zero. *)
Definition get (v : JsVal) (name : string) : Completion JsVal :=
  match v with
  | JUndefined => Throw (TypeError "Cannot read properties of undefined")
  | JNull => Throw (TypeError "Cannot read properties of null")
  | JBool _ | JNum _ => Normal JUndefined
  | JStr s =>
      if String.eqb name "length" then Normal (JNum (Z.of_nat (String.length s)))
      else Normal JUndefined
  | JArr items =>
      if String.eqb name "length" then Normal (JNum (Z.of_nat (List.length items)))
      else Normal JUndefined
  | JObj fields =>
      match assoc name fields with
      | Some x => Normal x
      | None => Normal JUndefined
      end
  end.

(** [v?.name] *)
Definition opt_get (v : JsVal) (name : string) : Completion JsVal :=
  if nullish v then Normal JUndefined else get v name.

(** Sequencing of expressions that may throw. *)
Definition cbind {A B : Type} (c : Completion A) (k : A -> Completion B)
  : Completion B :=
  match c with
  | Normal a => k a
  | Throw e => Throw e
  end.

(** Statements: a state [S] is threaded through, and survives a throw. *)
Definition M (S A : Type) : Type := S -> Completion A * S.

Definition ret {S A : Type} (a : A) : M S A := fun s => (Normal a, s).

Definition bind {S A B : Type} (m : M S A) (k : A -> M S B) : M S B :=
  fun s =>
    match m s with
    | (Normal a, s') => k a s'
    | (Throw e, s') => (Throw e, s')
    end.

Definition lift {S A : Type} (c : Completion A) : M S A := fun s => (c, s).

Definition gets {S A : Type} (f : S -> A) : M S A := fun s => (Normal (f s), s).

Definition modify {S : Type} (f : S -> S) : M S unit := fun s => (Normal tt, f s).

(** [try { body } catch (err) { handler } finally { cleanup }]: the handler
    runs on a throw of the body; the cleanup runs in every case, and the
    statement completes as the body (or the handler) did unless the cleanup
    itself throws. *)
Definition try_catch_finally {S A : Type}
  (body : M S A) (handler : JsVal -> M S A) (cleanup : M S unit) : M S A :=
  fun s =>
    let '(c, s1) :=
      match body s with
      | (Normal a, s') => (Normal a, s')
      | (Throw err, s') => handler err s'
      end in
    match cleanup s1 with
    | (Normal _, s2) => (c, s2)
    | (Throw e, s2) => (Throw e, s2)
    end.

End Js.
Import Js.

Declare Scope js_scope.
Delimit Scope js_scope with js.
Notation "x <- c ;; k" := (bind c (fun x => k))
  (at level 61, c at next level, right associativity) : js_scope.
Notation "c ;; k" := (bind c (fun _ => k))
  (at level 61, right associativity) : js_scope.
Notation "x <~ c ;; k" := (cbind c (fun x => k))
  (at level 61, c at next level, right associativity) : js_scope.
Local Open Scope js_scope.

(* ===================================================================== *)
(** ** State of the application *)
(* ===================================================================== *)

(** [formData] of [RepositoryForm]: the object given to [useState], which is
    also the JSON body of both requests.  [repository_url] and
    [repository_content] only ever hold the text of their input fields;
    [language] and [framework] are also written from a response
    ([response.data.language || '']), so they hold any value. *)
Record FormState : Type := mkFormState {
  repository_url : string;
  repository_content : string;
  language : JsVal;
  framework : JsVal
}.

(** A call that leaves the form component: one of its three props, or
    [axios.post]. *)
Inductive Call : Type :=
| CallPost (url : string) (body : FormState)
| CallOnPipelineGenerated (pipelineData : JsVal)
| CallOnError (errorMessage : JsVal)
| CallOnLoadingChange (isLoading : bool).

(** The state slots of both components ([useState] in [App] and in
    [RepositoryForm]), the error of a state updater that threw (React raises it
    again when it renders, and nothing catches it there), and the calls made so
    far, oldest first. *)
Record World : Type := mkWorld {
  formData : FormState;
  pipeline : JsVal;
  loading : bool;
  error : JsVal;
  render_error : option JsVal;
  calls : list Call
}.

Definition with_formData (f : FormState) (w : World) : World :=
  mkWorld f (pipeline w) (loading w) (error w) (render_error w) (calls w).
Definition with_pipeline (p : JsVal) (w : World) : World :=
  mkWorld (formData w) p (loading w) (error w) (render_error w) (calls w).
Definition with_loading (b : bool) (w : World) : World :=
  mkWorld (formData w) (pipeline w) b (error w) (render_error w) (calls w).
Definition with_error (e : JsVal) (w : World) : World :=
  mkWorld (formData w) (pipeline w) (loading w) e (render_error w) (calls w).
Definition with_render_error (e : JsVal) (w : World) : World :=
  mkWorld (formData w) (pipeline w) (loading w) (error w) (Some e) (calls w).
Definition record_call (c : Call) (w : World) : World :=
  mkWorld (formData w) (pipeline w) (loading w) (error w) (render_error w)
          (calls w ++ [c]).

(** The state after mounting [App]: the initial values given to [useState]. *)
Definition mount : World :=
  mkWorld (mkFormState "" "" (JStr "") (JStr "")) JNull false JNull None [].

(** What [axios.post] does with a request: the promise resolves with a
    response whose [data] is the parsed body, or rejects with an error. *)
Inductive NetResult : Type :=
| Resolved (data : JsVal)
| Rejected (err : JsVal).

Definition Network : Type := string -> FormState -> NetResult.

(** The props of [RepositoryForm]. *)
Record Props : Type := mkProps {
  onPipelineGenerated : JsVal -> M World unit;
  onError : JsVal -> M World unit;
  onLoadingChange : bool -> M World unit
}.

(** Each prop wrapped so that its calls are recorded, as a test spy does. *)
Definition spy (props : Props) : Props :=
  {| onPipelineGenerated := fun v =>
       modify (record_call (CallOnPipelineGenerated v)) ;; onPipelineGenerated props v;
     onError := fun v =>
       modify (record_call (CallOnError v)) ;; onError props v;
     onLoadingChange := fun b =>
       modify (record_call (CallOnLoadingChange b)) ;; onLoadingChange props b |}.

(** The calls of each kind, in order. *)
Definition loading_calls (l : list Call) : list bool :=
  flat_map (fun c => match c with CallOnLoadingChange b => [b] | _ => [] end) l.
Definition error_calls (l : list Call) : list JsVal :=
  flat_map (fun c => match c with CallOnError v => [v] | _ => [] end) l.
Definition pipeline_calls (l : list Call) : list JsVal :=
  flat_map (fun c => match c with CallOnPipelineGenerated v => [v] | _ => [] end) l.
Definition post_calls (l : list Call) : list (string * FormState) :=
  flat_map (fun c => match c with CallPost u b => [(u, b)] | _ => [] end) l.

(* ===================================================================== *)
(** ** RepositoryForm.jsx *)
(* ===================================================================== *)

Module RepositoryForm.

Section Handlers.

(** The backend, as [axios.post] sees it. *)
Variable net : Network.
Variable props : Props.

(** [await axios.post(url, formData)], followed by [response.data]. *)
Definition axios_post (url : string) (body : FormState) : M World JsVal :=
  modify (record_call (CallPost url body)) ;;
  match net url body with
  | Resolved data => ret data
  | Rejected err => fun w => (Throw err, w)
  end.

(** [setFormData(updater)]: the updater runs on the current state.  When it
    throws, the handler does not see the exception: React keeps the state and
    raises the error when it renders. *)
Definition setFormData (updater : FormState -> Completion FormState)
  : M World unit :=
  fun w =>
    match updater (formData w) with
    | Normal f => (Normal tt, with_formData f w)
    | Throw e => (Normal tt, with_render_error e w)
    end.

(** [err.response?.data?.detail || err.message || fallback] *)
Definition errorMessage (err : JsVal) (fallback : string) : Completion JsVal :=
  response <~ get err "response" ;;
  data <~ opt_get response "data" ;;
  detail <~ opt_get data "detail" ;;
  if truthy detail then Normal detail
  else
    message <~ get err "message" ;;
    Normal (js_or message (JStr fallback)).

(** [!formData.repository_url && !formData.repository_content] *)
Definition nothing_provided (f : FormState) : bool :=
  negb (truthy (JStr (repository_url f))) &&
  negb (truthy (JStr (repository_content f))).

(** [handleSubmit]; [e.preventDefault()] touches no state of the components. *)
Definition handleSubmit : M World unit :=
  f <- gets formData ;;
  if nothing_provided f then
    onError props (JStr "Please provide either a repository URL or code content")
  else
    onLoadingChange props true ;;
    try_catch_finally
      (data <- axios_post "/api/generate-pipeline" f ;;
       onPipelineGenerated props data)
      (fun err =>
         msg <- lift (errorMessage err "Failed to generate pipeline") ;;
         onError props msg)
      (onLoadingChange props false).

(** The updater of [handleAnalyze]:
    [prev => ({...prev, language: response.data.language || '',
                        framework: response.data.framework || ''})] *)
Definition analysis_updater (data : JsVal) (prev : FormState)
  : Completion FormState :=
  l <~ get data "language" ;;
  fw <~ get data "framework" ;;
  Normal (mkFormState (repository_url prev) (repository_content prev)
                      (js_or l (JStr "")) (js_or fw (JStr ""))).

(** [handleAnalyze] *)
Definition handleAnalyze : M World unit :=
  f <- gets formData ;;
  if nothing_provided f then
    onError props
      (JStr "Please provide either a repository URL or code content to analyze")
  else
    onLoadingChange props true ;;
    try_catch_finally
      (data <- axios_post "/api/analyze-repository" f ;;
       setFormData (analysis_updater data) ;;
       onError props JNull)
      (fun err =>
         msg <- lift (errorMessage err "Failed to analyze repository") ;;
         onError props msg)
      (onLoadingChange props false).

End Handlers.

End RepositoryForm.

(* ===================================================================== *)
(** ** App.jsx *)
(* ===================================================================== *)

Module App.

(** [handlePipelineGenerated] *)
Definition handlePipelineGenerated (pipelineData : JsVal) : M World unit :=
  modify (with_pipeline pipelineData) ;;
  modify (with_error JNull).

(** [handleError] *)
Definition handleError (errorMessage : JsVal) : M World unit :=
  modify (with_error errorMessage) ;;
  modify (with_pipeline JNull).

(** [handleLoadingChange] *)
Definition handleLoadingChange (isLoading : bool) : M World unit :=
  modify (with_loading isLoading).

(** The props [App] hands to [<RepositoryForm />]. *)
Definition props : Props :=
  {| onPipelineGenerated := handlePipelineGenerated;
     onError := handleError;
     onLoadingChange := handleLoadingChange |}.

(** What [App] returns below the form: the children it hands to React.  The
    error box holds [{error}] as it is; React paints such a child when it is
    text, and refuses one that holds a plain object. *)
Record View : Type := mkView {
  spinner : bool;              (* [loading && <div className="card">...] *)
  error_box : option JsVal;    (* [error && <div className="error-message">] *)
  visualizer : option JsVal    (* [pipeline && !loading && <PipelineVisualizer pipeline={pipeline} />] *)
}.

Definition view (w : World) : View :=
  {| spinner := loading w;
     error_box := if truthy (error w) then Some (error w) else None;
     visualizer := if truthy (pipeline w) && negb (loading w)
                   then Some (pipeline w) else None |}.

(** A click on "Generate Pipeline" and on "Auto-Detect Language" in the
    mounted application, the props being watched. *)
Definition submitGenerate (net : Network) : M World unit :=
  RepositoryForm.handleSubmit net (spy props).
Definition submitAnalyze (net : Network) : M World unit :=
  RepositoryForm.handleAnalyze net (spy props).

End App.

(* ===================================================================== *)
(** ** PipelineVisualizer.jsx *)
(* ===================================================================== *)

Module Visualizer.

(** The seven [<svg>] elements of the object literal [stageIcons], named after
    the key each is listed under. *)
Inductive Icon : Type :=
| unit_test_backend
| unit_test_frontend
| integration_test_backend
| integration_test_frontend
| code_quality
| performance_test
| security_test.

(** The module-level state of the file: the object [stageIcons], as the
    association list of its own properties.  The components can reach no other
    state of the module. *)
Record Store : Type := mkStore {
  stageIcons : list (string * Icon)
}.

(** The store once the module is loaded (lines 3-42). *)
Definition module_init : Store :=
  {| stageIcons :=
       [ ("unit_test_backend", unit_test_backend);
         ("unit_test_frontend", unit_test_frontend);
         ("integration_test_backend", integration_test_backend);
         ("integration_test_frontend", integration_test_frontend);
         ("code_quality", code_quality);
         ("performance_test", performance_test);
         ("security_test", security_test) ] |}.

(** The properties every object literal inherits from [Object.prototype];
    each is a function, but [__proto__], which is [Object.prototype] itself. *)
Definition Object_prototype_keys : list string :=
  [ "constructor"; "__defineGetter__"; "__defineSetter__"; "hasOwnProperty";
    "__lookupGetter__"; "__lookupSetter__"; "isPrototypeOf";
    "propertyIsEnumerable"; "toString"; "valueOf"; "__proto__";
    "toLocaleString" ].

(** The value of [stageIcons[key]]. *)
Inductive IconVal : Type :=
| IconElement (i : Icon)
| InheritedMember (key : string)
| IconUndefined.

Definition icon_truthy (v : IconVal) : bool :=
  match v with
  | IconElement _ | InheritedMember _ => true
  | IconUndefined => false
  end.

Definition mem_string (k : string) (l : list string) : bool :=
  existsb (String.eqb k) l.

(** [stageIcons[key]]: an own property, else one found on the prototype. *)
Definition read_stageIcons (key : string) : M Store IconVal :=
  gets (fun st =>
          match assoc key (stageIcons st) with
          | Some i => IconElement i
          | None => if mem_string key Object_prototype_keys
                    then InheritedMember key else IconUndefined
          end).

(** [stageIcons[type] || stageIcons.code_quality] *)
Definition stage_icon (type : string) : M Store IconVal :=
  found <- read_stageIcons type ;;
  if icon_truthy found then ret found else read_stageIcons "code_quality".

(** [type.replace(/_/g, ' ')] on a string *)
Fixpoint replace_underscores (s : string) : string :=
  match s with
  | EmptyString => EmptyString
  | String c rest =>
      String (if Ascii.eqb c "_"%char then " "%char else c) (replace_underscores rest)
  end.

(** The element tree a component returns.  Of the attributes only [className]
    is kept ([key], [style] and the attributes of the inline [<svg>] are
    not). *)
Inductive Node : Type :=
| Element (tag : string) (className : option string) (children : list Node)
| Text (s : string)            (* text written in the JSX *)
| Value (v : JsVal)            (* a child [{expression}] *)
| IconChild (v : IconVal)      (* the child [{stageIcons[...] || ...}] *)
| Items (l : list Node).       (* a child that is an array of elements *)

(** The receiver of a call [v.map(...)]: an array, or the call throws
    ([v] is [undefined] or [null], or has no function [map]). *)
Definition map_receiver (v : JsVal) : Completion (list JsVal) :=
  match v with
  | JArr items => Normal items
  | JUndefined => Throw (TypeError "Cannot read properties of undefined")
  | JNull => Throw (TypeError "Cannot read properties of null")
  | _ => Throw (TypeError "map is not a function")
  end.

(** [xs.map(f)] where [f] may throw. *)
Fixpoint map_M {S A B : Type} (f : A -> M S B) (xs : list A) : M S (list B) :=
  match xs with
  | [] => ret []
  | x :: rest =>
      y <- f x ;;
      ys <- map_M f rest ;;
      ret (y :: ys)
  end.

(** [items.map((x, i) => <li key={i}>{x}</li>)] *)
Definition list_items (items : list JsVal) : Node :=
  Items (map (fun x => Element "li" None [Value x]) items).

Section Render.

(** [v > 0] for a [v] that is a string, an array or an object: the comparison
    first converts [v] to a number (ToPrimitive, then StringToNumber), which is
    not modelled.  It is only reached for a [recommendations] that is an object
    with a property [length] of its own that is not a number. *)
Variable gt_zero_converted : JsVal -> Completion bool.

(** [v > 0] *)
Definition gt_zero (v : JsVal) : Completion bool :=
  match v with
  | JNum n => Normal (Z.ltb 0 n)
  | JBool b => Normal b
  | JUndefined | JNull => Normal false
  | JStr _ | JArr _ | JObj _ => gt_zero_converted v
  end.

(** The callback of [pipeline.stages.map] (lines 56-104).  The expression
    [stage.type.replace(/_/g, ' ')] throws unless [stage.type] is a string;
    what is evaluated before it reads [stageIcons] and [stage] and changes
    nothing, so the model raises as soon as [stage.type] is known. *)
Definition render_stage (stage : JsVal) : M Store Node :=
  type <- lift (get stage "type") ;;
  match type with
  | JStr t =>
      icon <- stage_icon t ;;
      name <- lift (get stage "name") ;;
      description <- lift (get stage "description") ;;
      commands <- lift (c <~ get stage "commands" ;; map_receiver c) ;;
      tools <- lift (c <~ get stage "tools" ;; map_receiver c) ;;
      estimatedDuration <- lift (get stage "estimatedDuration") ;;
      ret (Element "div" (Some "pipeline-stage")
             [ Element "div" (Some "stage-header")
                 [ Element "div" (Some "stage-title") [IconChild icon; Value name];
                   Element "div" None
                     [ Element "span" (Some ("stage-type-badge stage-type-" ++ t)%string)
                         [Value (JStr (replace_underscores t))] ] ];
               Element "div" (Some "stage-description") [Value description];
               Element "div" (Some "stage-details")
                 [ Element "div" (Some "detail-section")
                     [ Element "h4" None [Text "Commands to Run:"];
                       Element "ul" None [list_items commands] ];
                   Element "div" (Some "detail-section")
                     [ Element "h4" None [Text "Tools & Frameworks:"];
                       Element "ul" None [list_items tools] ] ];
               Element "div" None
                 [ Element "svg" None
                     [Element "circle" None []; Element "polyline" None []];
                   Element "span" (Some "stage-duration")
                     [Text "Estimated Duration: "; Value estimatedDuration] ] ])
  | JUndefined => lift (Throw (TypeError "Cannot read properties of undefined"))
  | JNull => lift (Throw (TypeError "Cannot read properties of null"))
  | _ => lift (Throw (TypeError "replace is not a function"))
  end.

(** [pipeline.recommendations && pipeline.recommendations.length > 0 && (...)]
    (lines 112-121) *)
Definition render_recommendations (pipeline : JsVal) : Completion Node :=
  recommendations <~ get pipeline "recommendations" ;;
  if negb (truthy recommendations) then Normal (Value recommendations)
  else
    len <~ get recommendations "length" ;;
    positive <~ gt_zero len ;;
    if negb positive then Normal (Value (JBool false))
    else
      recs <~ map_receiver recommendations ;;
      Normal (Element "div" (Some "recommendations")
                [ Element "h4" None [Text "Recommendations"];
                  Element "ul" None [list_items recs] ]).

(** [pipeline.summary && (...)] (lines 107-123) *)
Definition render_summary (pipeline : JsVal) : Completion Node :=
  summary <~ get pipeline "summary" ;;
  if negb (truthy summary) then Normal (Value summary)
  else
    recommendations <~ render_recommendations pipeline ;;
    Normal (Element "div" (Some "summary-section")
              [ Element "h3" None [Text "Pipeline Summary"];
                Element "p" None [Value summary];
                recommendations ]).

(** [PipelineVisualizer({ pipeline })]: [None] is the [null] of line 46. *)
Definition PipelineVisualizer (pipeline : JsVal) : M Store (option Node) :=
  if negb (truthy pipeline) then ret None
  else
    stages <- lift (get pipeline "stages") ;;
    if negb (truthy stages) then ret None
    else
      stage_values <- lift (map_receiver stages) ;;
      stage_nodes <- map_M render_stage stage_values ;;
      summary <- lift (render_summary pipeline) ;;
      ret (Some
             (Element "div" (Some "pipeline-container")
                [ Element "div" (Some "card")
                    [ Element "h2" None [Text "Generated Test Pipeline"];
                      Items stage_nodes ];
                  summary ])).

End Render.

End Visualizer.

(* ===================================================================== *)
(** ** Vocabulary of the specification *)
(* ===================================================================== *)

(** The two operations of the intake form. *)
Inductive Operation : Type := Generate | Analyze.

Definition endpoint (op : Operation) : string :=
  match op with
  | Generate => "/api/generate-pipeline"
  | Analyze => "/api/analyze-repository"
  end.

Definition validation_message (op : Operation) : string :=
  match op with
  | Generate => "Please provide either a repository URL or code content"
  | Analyze => "Please provide either a repository URL or code content to analyze"
  end.

Definition fallback_message (op : Operation) : string :=
  match op with
  | Generate => "Failed to generate pipeline"
  | Analyze => "Failed to analyze repository"
  end.

Definition submit (op : Operation) (net : Network) : M World unit :=
  match op with
  | Generate => App.submitGenerate net
  | Analyze => App.submitAnalyze net
  end.

(** The state in which an operation leaves the application. *)
Definition after (op : Operation) (net : Network) (w : World) : World :=
  snd (submit op net w).

(** A string of blanks only (space, tab, line feed, carriage return). *)
Definition is_blank (c : ascii) : bool :=
  Ascii.eqb c " "%char || Ascii.eqb c "009"%char ||
  Ascii.eqb c "010"%char || Ascii.eqb c "013"%char.

Fixpoint whitespace_only (s : string) : bool :=
  match s with
  | EmptyString => true
  | String c rest => is_blank c && whitespace_only rest
  end.

(** A property an object has of its own. *)
Definition field (v : JsVal) (name : string) : option JsVal :=
  match v with
  | JObj fields => assoc name fields
  | _ => None
  end.

(** A value that is there: neither missing nor falsy. *)
Definition present (o : option JsVal) : option JsVal :=
  match o with
  | Some v => if truthy v then Some v else None
  | None => None
  end.

(** The [detail] of the server's error body, [err.response.data.detail]. *)
Definition server_detail (err : JsVal) : option JsVal :=
  match field err "response" with
  | Some response =>
      match field response "data" with
      | Some data => field data "detail"
      | None => None
      end
  | None => None
  end.

(** The resolution order of the specification: the server's detail, else the
    message of the transport error, else the fallback. *)
Definition resolved_message (op : Operation) (err : JsVal) : JsVal :=
  match present (server_detail err) with
  | Some detail => detail
  | None =>
      match present (field err "message") with
      | Some message => message
      | None => JStr (fallback_message op)
      end
  end.

(** A pipeline prop of the type the specification gives it: absent, or an
    object whose [stages], when it has the property, is an array. *)
Definition absent (p : JsVal) : Prop := p = JNull \/ p = JUndefined.

Definition has_no_stages (p : JsVal) : Prop :=
  exists fields, p = JObj fields /\ assoc "stages" fields = None.

(** The [stages] of a pipeline prop is missing, or has a falsy value ([null],
    [false], [0], ['']). *)
Definition stages_missing_or_falsy (p : JsVal) : Prop :=
  match field p "stages" with
  | None => True
  | Some stages => truthy stages = false
  end.

Definition PipelineDocument_shape (p : JsVal) : Prop :=
  absent p \/
  exists fields, p = JObj fields /\
    forall v, assoc "stages" fields = Some v -> exists items, v = JArr items.

(** A call fails when the form is refused locally, or when the request is
    rejected with an error value (a value other than [null] and
    [undefined]). *)
Definition fails (op : Operation) (net : Network) (f : FormState) : Prop :=
  RepositoryForm.nothing_provided f = true \/
  exists err, net (endpoint op) f = Rejected err /\ nullish err = false.

(** The calls a failed operation makes, given the message it reports. *)
Definition failure_calls (op : Operation) (f : FormState) (msg : JsVal)
  : list Call :=
  if RepositoryForm.nothing_provided f then [CallOnError msg]
  else [ CallOnLoadingChange true; CallPost (endpoint op) f;
         CallOnError msg; CallOnLoadingChange false ].

(** The state after a validation failure: one call, of the error prop. *)
Definition invalid_world (op : Operation) (w : World) : World :=
  let msg := JStr (validation_message op) in
  mkWorld (formData w) JNull (loading w) msg (render_error w)
          (calls w ++ [CallOnError msg]).

(** The state after a request that was rejected with [err]. *)
Definition rejected_world (op : Operation) (err : JsVal) (w : World) : World :=
  let msg := resolved_message op err in
  mkWorld (formData w) JNull false msg (render_error w)
          (calls w ++ [ CallOnLoadingChange true;
                        CallPost (endpoint op) (formData w);
                        CallOnError msg;
                        CallOnLoadingChange false ]).

(** The state after a generate request that was answered with [data]. *)
Definition generated_world (data : JsVal) (w : World) : World :=
  mkWorld (formData w) data false JNull (render_error w)
          (calls w ++ [ CallOnLoadingChange true;
                        CallPost (endpoint Generate) (formData w);
                        CallOnPipelineGenerated data;
                        CallOnLoadingChange false ]).

(** The state after an analyze request that was answered with [data]. *)
Definition analyzed_world (data : JsVal) (w : World) : World :=
  let made := calls w ++ [ CallOnLoadingChange true;
                           CallPost (endpoint Analyze) (formData w);
                           CallOnError JNull;
                           CallOnLoadingChange false ] in
  match RepositoryForm.analysis_updater data (formData w) with
  | Normal f => mkWorld f JNull false JNull (render_error w) made
  | Throw e => mkWorld (formData w) JNull false JNull (Some e) made
  end.

(** Sample data: the form, the answers and the documents of the
    specification's scenarios. *)
Definition sample_form : FormState :=
  mkFormState "https://github.com/user/repo" "" (JStr "") (JStr "").

Definition blank_form : FormState :=
  mkFormState "   " "" (JStr "") (JStr "").

Definition empty_pipeline : JsVal := JObj [("stages", JArr [])].

Definition not_found : JsVal :=
  JObj [("response", JObj [("data", JObj [("detail", JStr "Not Found")])])].

(** An error whose [detail] is a list, not a string, as a server reports the
    fields of a body it refuses. *)
Definition unprocessable : JsVal :=
  JObj [("response",
         JObj [("data",
                JObj [("detail",
                       JArr [JObj [("msg", JStr "field required")]])])])].

Definition answering (data : JsVal) : Network := fun _ _ => Resolved data.
Definition rejecting (err : JsVal) : Network := fun _ _ => Rejected err.

Definition sample_stage (type : string) : JsVal :=
  JObj [ ("name", JStr "Custom Stage"); ("type", JStr type);
         ("description", JStr "A custom stage type");
         ("commands", JArr [JStr "echo hello"]);
         ("tools", JArr [JStr "CustomTool"]);
         ("estimatedDuration", JStr "2m") ].

(** An instance of the comparison left open in [Visualizer.gt_zero], for the
    examples; they do not reach it. *)
Definition never_positive : JsVal -> Completion bool := fun _ => Normal false.

(** A statement that leaves the state as it found it. *)
Definition read_only {S A : Type} (m : M S A) : Prop :=
  forall s, snd (m s) = s.

(* ===================================================================== *)
(** ** RepositoryForm.jsx: the fields and their edits *)
(* ===================================================================== *)

Module Fields.

(** The four fields the component renders (lines 72-79, 87-93, 102-109,
    114-121), each bound to [handleChange]. *)
Inductive Input : Type :=
| url_input
| content_input
| language_input
| framework_input.

(** The attribute [name] of each. *)
Definition input_name (i : Input) : string :=
  match i with
  | url_input => "repository_url"
  | content_input => "repository_content"
  | language_input => "language"
  | framework_input => "framework"
  end.

(** The attribute [value] of each: [value={formData.repository_url}], ... *)
Definition input_value (i : Input) (f : FormState) : JsVal :=
  match i with
  | url_input => JStr (repository_url f)
  | content_input => JStr (repository_content f)
  | language_input => language f
  | framework_input => framework f
  end.

(** [{...prev, [name]: value}].  Under another name than the four the object
    would get a fifth property, which [FormState] does not hold; no field of
    the component has such a name. *)
Definition with_property (name value : string) (prev : FormState) : FormState :=
  if String.eqb name "repository_url" then
    mkFormState value (repository_content prev) (language prev) (framework prev)
  else if String.eqb name "repository_content" then
    mkFormState (repository_url prev) value (language prev) (framework prev)
  else if String.eqb name "language" then
    mkFormState (repository_url prev) (repository_content prev) (JStr value)
                (framework prev)
  else if String.eqb name "framework" then
    mkFormState (repository_url prev) (repository_content prev) (language prev)
                (JStr value)
  else prev.

(** [handleChange(e)], [e.target] being the field [target] holding the text
    [value]. *)
Definition handleChange (target : Input) (value : string) : M World unit :=
  RepositoryForm.setFormData
    (fun prev => Normal (with_property (input_name target) value prev)).

End Fields.

(* ===================================================================== *)
(** ** App.jsx: the coordinator under any caller of its callbacks *)
(* ===================================================================== *)

Module Coordinator.

(** A call of one of the three props [App] hands down. *)
Inductive Callback : Type :=
| PipelineGenerated (pipelineData : JsVal)
| ErrorReported (errorMessage : JsVal)
| LoadingChanged (isLoading : bool).

Definition invoke (c : Callback) : M World unit :=
  match c with
  | PipelineGenerated v => App.handlePipelineGenerated v
  | ErrorReported v => App.handleError v
  | LoadingChanged b => App.handleLoadingChange b
  end.

(** The state after the calls [cs], made in that order. *)
Definition run (cs : list Callback) (w : World) : World :=
  fold_left (fun w c => snd (invoke c w)) cs w.

(** Reading the history: the last call that reported a result (a pipeline or
    an error), and the last call that changed the loading flag. *)
Definition is_result (c : Callback) : bool :=
  match c with
  | LoadingChanged _ => false
  | _ => true
  end.

Definition last_result (cs : list Callback) : option Callback :=
  find is_result (rev cs).

Definition last_loading (cs : list Callback) : option Callback :=
  find (fun c => negb (is_result c)) (rev cs).

End Coordinator.

(* ===================================================================== *)
(** ** The two handlers around their [await] *)
(* ===================================================================== *)

Module Async.

Import RepositoryForm.

(** A request that was posted and is not settled yet: the operation that
    waits for it, and the body it carries. *)
Record Request : Type := mkRequest {
  request_op : Operation;
  request_body : FormState
}.

Section Halves.

Variable props : Props.

(** A handler from the click to its [await]: the validation, and for a form
    that passes it [onLoadingChange(true)] and the call of [axios.post].  The
    result is the request now in flight, if any. *)
Definition begin (op : Operation) : M World (option Request) :=
  f <- gets formData ;;
  if nothing_provided f then
    onError props (JStr (match op with
                         | Generate =>
                             "Please provide either a repository URL or code content"
                         | Analyze =>
                             "Please provide either a repository URL or code content to analyze"
                         end)) ;;
    ret None
  else
    onLoadingChange props true ;;
    modify (record_call
              (CallPost (match op with
                         | Generate => "/api/generate-pipeline"
                         | Analyze => "/api/analyze-repository"
                         end) f)) ;;
    ret (Some (mkRequest op f)).

(** The value of [await promise] once the promise is settled. *)
Definition awaited (result : NetResult) : M World JsVal :=
  match result with
  | Resolved data => ret data
  | Rejected err => fun w => (Throw err, w)
  end.

(** A handler from its [await] on: the rest of the [try] block, the [catch]
    and the [finally]. *)
Definition resume (op : Operation) (result : NetResult) : M World unit :=
  match op with
  | Generate =>
      try_catch_finally
        (data <- awaited result ;;
         onPipelineGenerated props data)
        (fun err =>
           msg <- lift (errorMessage err "Failed to generate pipeline") ;;
           onError props msg)
        (onLoadingChange props false)
  | Analyze =>
      try_catch_finally
        (data <- awaited result ;;
         setFormData (analysis_updater data) ;;
         onError props JNull)
        (fun err =>
           msg <- lift (errorMessage err "Failed to analyze repository") ;;
           onError props msg)
        (onLoadingChange props false)
  end.

End Halves.

(** The mounted application between two events: its state, and the requests
    in flight, oldest first. *)
Record Session : Type := mkSession {
  world : World;
  in_flight : list Request
}.

(** What happens to the application: the user edits a field, clicks one of the
    two buttons, or the request at position [n] of those in flight settles. *)
Inductive Event : Type :=
| Edit (target : Fields.Input) (value : string)
| Click (op : Operation)
| Settle (n : nat) (result : NetResult).

Fixpoint remove_nth {A : Type} (n : nat) (l : list A) : list A :=
  match n, l with
  | _, [] => []
  | O, _ :: rest => rest
  | S n', x :: rest => x :: remove_nth n' rest
  end.

(** One event.  A handler that ends by throwing leaves a rejected promise
    behind, which nothing awaits: the state stays as the handler left it. *)
Definition step (e : Event) (s : Session) : Session :=
  match e with
  | Edit target value =>
      mkSession (snd (Fields.handleChange target value (world s))) (in_flight s)
  | Click op =>
      match begin (spy App.props) op (world s) with
      | (Normal (Some request), w) => mkSession w (in_flight s ++ [request])
      | (_, w) => mkSession w (in_flight s)
      end
  | Settle n result =>
      match nth_error (in_flight s) n with
      | Some request =>
          mkSession (snd (resume (spy App.props) (request_op request) result
                            (world s)))
                    (remove_nth n (in_flight s))
      | None => s
      end
  end.

Definition run (es : list Event) (s : Session) : Session :=
  fold_left (fun s e => step e s) es s.

(** The application once mounted: nothing in flight. *)
Definition start : Session := mkSession mount [].

End Async.

(** The form after the edits [edits], made in that order. *)
Definition edited (edits : list (Fields.Input * string)) (f : FormState)
  : FormState :=
  fold_left (fun f e => Fields.with_property (Fields.input_name (fst e)) (snd e) f)
            edits f.

(** The coordinator holds a pipeline or an error, never both. *)
Definition exclusive (w : World) : Prop :=
  pipeline w = JNull \/ error w = JNull.

(** The states in which a handler can be left at its [await], and in which it
    leaves the application when it is done. *)
Definition begun_world (op : Operation) (w : World) : World :=
  mkWorld (formData w) (pipeline w) true (error w) (render_error w)
          (calls w ++ [ CallOnLoadingChange true;
                        CallPost (endpoint op) (formData w) ]).

Definition resumed_world (op : Operation) (result : NetResult) (w : World)
  : World :=
  match result with
  | Resolved data =>
      match op with
      | Generate =>
          mkWorld (formData w) data false JNull (render_error w)
                  (calls w ++ [CallOnPipelineGenerated data;
                               CallOnLoadingChange false])
      | Analyze =>
          match RepositoryForm.analysis_updater data (formData w) with
          | Normal f =>
              mkWorld f JNull false JNull (render_error w)
                      (calls w ++ [CallOnError JNull; CallOnLoadingChange false])
          | Throw e =>
              mkWorld (formData w) JNull false JNull (Some e)
                      (calls w ++ [CallOnError JNull; CallOnLoadingChange false])
          end
      end
  | Rejected err =>
      if nullish err then
        mkWorld (formData w) (pipeline w) false (error w) (render_error w)
                (calls w ++ [CallOnLoadingChange false])
      else
        mkWorld (formData w) JNull false (resolved_message op err)
                (render_error w)
                (calls w ++ [CallOnError (resolved_message op err);
                             CallOnLoadingChange false])
  end.

(** The events of a list of edits. *)
Definition edit_events (edits : list (Fields.Input * string)) : list Async.Event :=
  map (fun e => Async.Edit (fst e) (snd e)) edits.

(** How often the loading observer was told [b]. *)
Definition told (b : bool) (w : World) : nat :=
  count_occ Bool.bool_dec (loading_calls (calls w)) b.

(** What holds of the application between any two events. *)
Definition settled_invariant (s : Async.Session) : Prop :=
  (loading (Async.world s) = true -> Async.in_flight s <> []) /\
  exclusive (Async.world s) /\
  told true (Async.world s) = List.length (post_calls (calls (Async.world s))) /\
  told true (Async.world s) =
    (told false (Async.world s) + List.length (Async.in_flight s))%nat.

(** A stage the renderer can display: an object whose [type] is a string and
    whose [commands] and [tools] are arrays. *)
Definition stage_ok (stage : JsVal) : Prop :=
  exists t cs ts,
    get stage "type" = Normal (JStr t) /\
    get stage "commands" = Normal (JArr cs) /\
    get stage "tools" = Normal (JArr ts).

(** Recommendations of the specified type: missing or falsy, or an array. *)
Definition recommendations_ok (p : JsVal) : Prop :=
  forall r, field p "recommendations" = Some r ->
            truthy r = false \/ exists items, r = JArr items.

(* ===================================================================== *)
(** ** How each path of the two handlers runs *)
(* ===================================================================== *)

(** Unfolds the updates of the state and normalises the list of calls. *)
Ltac world_eq :=
  unfold with_formData, with_pipeline, with_loading, with_error,
    with_render_error, record_call;
  cbn; rewrite <- ?app_assoc; cbn; try reflexivity.

Section Runs.

Import RepositoryForm.

Lemma nothing_provided_iff (f : FormState) :
  nothing_provided f = true <->
  repository_url f = "" /\ repository_content f = "".
Proof.
  unfold nothing_provided; cbn.
  rewrite andb_true_iff, !negb_involutive, !String.eqb_eq.
  tauto.
Qed.

Lemma errorMessage_resolved (op : Operation) (err : JsVal) :
  nullish err = false ->
  errorMessage err (fallback_message op) = Normal (resolved_message op err).
Proof.
  intros Hn.
  destruct err as [ | | b | n | s | items | fields ]; try discriminate; try reflexivity.
  unfold errorMessage, resolved_message, server_detail; cbn.
  destruct (assoc "response" fields) as [response|]; cbn.
  - destruct response as [ | | b | n | s | items | rfields ]; cbn;
      try (unfold js_or; destruct (assoc "message" fields) as [m|]; cbn;
           [destruct (truthy m)|]; reflexivity).
    destruct (assoc "data" rfields) as [data|]; cbn.
    + destruct data as [ | | b | n | s | items | dfields ]; cbn;
        try (unfold js_or; destruct (assoc "message" fields) as [m|]; cbn;
             [destruct (truthy m)|]; reflexivity).
      destruct (assoc "detail" dfields) as [detail|]; cbn.
      * destruct (truthy detail); [reflexivity|].
        unfold js_or; destruct (assoc "message" fields) as [m|]; cbn;
          [destruct (truthy m)|]; reflexivity.
      * unfold js_or; destruct (assoc "message" fields) as [m|]; cbn;
          [destruct (truthy m)|]; reflexivity.
    + unfold js_or; destruct (assoc "message" fields) as [m|]; cbn;
        [destruct (truthy m)|]; reflexivity.
  - unfold js_or; destruct (assoc "message" fields) as [m|]; cbn;
      [destruct (truthy m)|]; reflexivity.
Qed.

Lemma present_truthy (o : option JsVal) (v : JsVal) :
  present o = Some v -> truthy v = true.
Proof.
  destruct o as [x|]; cbn; [|discriminate].
  destruct (truthy x) eqn:E; [|discriminate].
  intros H; injection H as <-; exact E.
Qed.

Lemma resolved_message_truthy (op : Operation) (err : JsVal) :
  truthy (resolved_message op err) = true.
Proof.
  unfold resolved_message.
  destruct (present (server_detail err)) as [d|] eqn:Ed.
  - eapply present_truthy; eassumption.
  - destruct (present (field err "message")) as [m|] eqn:Em.
    + eapply present_truthy; eassumption.
    + destruct op; reflexivity.
Qed.

Lemma submit_invalid (op : Operation) (net : Network) (w : World) :
  nothing_provided (formData w) = true ->
  submit op net w = (Normal tt, invalid_world op w).
Proof.
  intros H.
  destruct op; unfold submit, App.submitGenerate, App.submitAnalyze,
    handleSubmit, handleAnalyze, bind, gets; cbn; rewrite H;
    unfold invalid_world; world_eq.
Qed.

Lemma submit_rejected (op : Operation) (net : Network) (w : World) (err : JsVal) :
  nothing_provided (formData w) = false ->
  net (endpoint op) (formData w) = Rejected err ->
  nullish err = false ->
  submit op net w = (Normal tt, rejected_world op err w).
Proof.
  intros Hv Hnet Hn.
  pose proof (errorMessage_resolved op err Hn) as Hmsg.
  destruct op; cbn [fallback_message endpoint] in *;
    unfold submit, App.submitGenerate, App.submitAnalyze,
    handleSubmit, handleAnalyze, try_catch_finally, axios_post, bind, gets, lift;
    cbn -[errorMessage]; rewrite Hv; cbn -[errorMessage];
    rewrite Hnet; cbn -[errorMessage]; rewrite Hmsg; cbn;
    unfold rejected_world; world_eq.
Qed.

End Runs.

Section MoreRuns.

Import RepositoryForm.

Lemma generate_resolved (net : Network) (w : World) (data : JsVal) :
  nothing_provided (formData w) = false ->
  net (endpoint Generate) (formData w) = Resolved data ->
  submit Generate net w = (Normal tt, generated_world data w).
Proof.
  intros Hv Hnet. cbn [endpoint] in Hnet.
  unfold submit, App.submitGenerate, handleSubmit, try_catch_finally,
    axios_post, bind, gets, lift; cbn.
  rewrite Hv; cbn; rewrite Hnet; cbn.
  unfold generated_world; world_eq.
Qed.

Lemma analyze_resolved (net : Network) (w : World) (data : JsVal) :
  nothing_provided (formData w) = false ->
  net (endpoint Analyze) (formData w) = Resolved data ->
  submit Analyze net w = (Normal tt, analyzed_world data w).
Proof.
  intros Hv Hnet. cbn [endpoint] in Hnet.
  unfold submit, App.submitAnalyze, handleAnalyze, try_catch_finally,
    axios_post, setFormData, bind, gets, lift; cbn -[analysis_updater].
  rewrite Hv; cbn -[analysis_updater]; rewrite Hnet; cbn -[analysis_updater].
  unfold analyzed_world.
  destruct (analysis_updater data (formData w)) as [f'|e]; world_eq.
Qed.

(** A request rejected with [null] or [undefined]: reading [err.response] in
    the [catch] block throws, so the error prop is not called; [finally] still
    runs. *)
Lemma submit_rejected_nullish (op : Operation) (net : Network) (w : World)
      (err : JsVal) :
  nothing_provided (formData w) = false ->
  net (endpoint op) (formData w) = Rejected err ->
  nullish err = true ->
  calls (after op net w) =
    calls w ++ [ CallOnLoadingChange true; CallPost (endpoint op) (formData w);
                 CallOnLoadingChange false ] /\
  formData (after op net w) = formData w /\
  pipeline (after op net w) = pipeline w.
Proof.
  intros Hv Hnet Hn.
  destruct err; try discriminate;
    destruct op; cbn [endpoint] in Hnet;
    unfold after, submit, App.submitGenerate, App.submitAnalyze,
      handleSubmit, handleAnalyze, try_catch_finally, axios_post, bind, gets,
      lift; cbn; rewrite Hv; cbn; rewrite Hnet; cbn;
    repeat split; world_eq.
Qed.

End MoreRuns.

(* ===================================================================== *)
(** ** The intake form and the coordinator *)
(* ===================================================================== *)

Section FormClaims.

Import RepositoryForm.

Lemma post_calls_app (l l' : list Call) :
  post_calls (l ++ l') = post_calls l ++ post_calls l'.
Proof. apply flat_map_app. Qed.

Lemma error_calls_app (l l' : list Call) :
  error_calls (l ++ l') = error_calls l ++ error_calls l'.
Proof. apply flat_map_app. Qed.

Lemma loading_calls_app (l l' : list Call) :
  loading_calls (l ++ l') = loading_calls l ++ loading_calls l'.
Proof. apply flat_map_app. Qed.

Lemma empty_fields_nothing_provided (f : FormState) :
  repository_url f = "" -> repository_content f = "" ->
  nothing_provided f = true.
Proof. intros; apply nothing_provided_iff; split; assumption. Qed.

(** C1, as the code has it.  For every state of the form in which
    [repository_url] and [repository_content] are both the empty string,
    generate reports 'Please provide either a repository URL or code content'
    and analyze reports 'Please provide either a repository URL or code
    content to analyze' to the error observer; that call is the only call
    made, so no request is issued and the operation completes normally. *)
Theorem empty_form_is_refused (op : Operation) (net : Network) (w : World) :
  repository_url (formData w) = "" ->
  repository_content (formData w) = "" ->
  fst (submit op net w) = Normal tt /\
  calls (after op net w) =
    calls w ++ [CallOnError (JStr (validation_message op))] /\
  post_calls (calls (after op net w)) = post_calls (calls w) /\
  validation_message Generate =
    "Please provide either a repository URL or code content" /\
  validation_message Analyze =
    "Please provide either a repository URL or code content to analyze".
Proof.
  intros Hu Hc.
  pose proof (submit_invalid op net w
                (empty_fields_nothing_provided _ Hu Hc)) as Hrun.
  unfold after; rewrite Hrun; cbn.
  repeat split.
  rewrite post_calls_app; cbn. apply app_nil_r.
Qed.

Lemma empty_form_is_refused_on_mount :
  calls (after Generate (answering empty_pipeline) mount) =
    [CallOnError (JStr "Please provide either a repository URL or code content")]
  /\
  calls (after Analyze (answering empty_pipeline) mount) =
    [CallOnError
       (JStr "Please provide either a repository URL or code content to analyze")].
Proof.
  split.
  - exact (proj1 (proj2 (empty_form_is_refused Generate (answering empty_pipeline)
                           mount eq_refl eq_refl))).
  - exact (proj1 (proj2 (empty_form_is_refused Analyze (answering empty_pipeline)
                           mount eq_refl eq_refl))).
Defined.

(** C1 as stated fails: a [repository_url] of three spaces, with an empty
    [repository_content], passes the tests of lines 23 and 42 (a string of
    blanks is truthy); the request is posted and no validation message is
    reported. *)
Lemma whitespace_only_form_is_posted :
  let w := with_formData blank_form mount in
  whitespace_only (repository_url (formData w)) = true /\
  whitespace_only (repository_content (formData w)) = true /\
  calls (after Generate (answering empty_pipeline) w) =
    [ CallOnLoadingChange true;
      CallPost "/api/generate-pipeline" blank_form;
      CallOnPipelineGenerated empty_pipeline;
      CallOnLoadingChange false ] /\
  calls (after Analyze (answering (JObj [])) w) =
    [ CallOnLoadingChange true;
      CallPost "/api/analyze-repository" blank_form;
      CallOnError JNull;
      CallOnLoadingChange false ].
Proof. repeat split. Qed.

(** C2, as the code has it.  When a generate call has succeeded, storing the
    pipeline, and a later analyze request is rejected with an error value, the
    failure goes through [handleError] of the coordinator: the message of the
    failure is stored and the pipeline slot is cleared to [null], so the
    pipeline of the generate success is no longer displayed; when the message
    is a string, the error box shows it. *)
Theorem analyze_failure_clears_pipeline
        (net1 net2 : Network) (w : World) (data err : JsVal) :
  nothing_provided (formData w) = false ->
  net1 (endpoint Generate) (formData w) = Resolved data ->
  net2 (endpoint Analyze) (formData w) = Rejected err ->
  nullish err = false ->
  let w1 := after Generate net1 w in
  let w2 := after Analyze net2 w1 in
  pipeline w1 = data /\
  pipeline w2 = JNull /\
  error w2 = resolved_message Analyze err /\
  (forall text, resolved_message Analyze err = JStr text ->
     App.error_box (App.view w2) = Some (JStr text)) /\
  App.visualizer (App.view w2) = None.
Proof.
  intros Hv H1 H2 Hn w1 w2.
  assert (E1 : w1 = generated_world data w).
  { unfold w1, after. rewrite (generate_resolved net1 w data Hv H1). reflexivity. }
  assert (E2 : w2 = rejected_world Analyze err w1).
  { unfold w2, after.
    rewrite (submit_rejected Analyze net2 w1 err); [reflexivity| | |assumption];
      rewrite E1; cbn; assumption. }
  rewrite E2, E1; cbn.
  rewrite (resolved_message_truthy Analyze err).
  repeat split.
  intros text ->. reflexivity.
Qed.

Lemma analyze_failure_clears_pipeline_scenario :
  let w := with_formData sample_form mount in
  let w1 := after Generate (answering empty_pipeline) w in
  let w2 := after Analyze (rejecting not_found) w1 in
  pipeline w1 = empty_pipeline /\
  pipeline w2 = JNull /\
  error w2 = JStr "Not Found" /\
  App.error_box (App.view w2) = Some (JStr "Not Found") /\
  App.visualizer (App.view w2) = None.
Proof.
  pose proof (analyze_failure_clears_pipeline
                (answering empty_pipeline) (rejecting not_found)
                (with_formData sample_form mount) empty_pipeline not_found
                eq_refl eq_refl eq_refl eq_refl) as H.
  exact (conj (proj1 H)
          (conj (proj1 (proj2 H))
             (conj (proj1 (proj2 (proj2 H)))
                (conj (proj1 (proj2 (proj2 (proj2 H))) "Not Found" eq_refl)
                      (proj2 (proj2 (proj2 (proj2 H)))))))).
Defined.

(** C2 as stated fails: scenario 5 run on the code.  The pipeline of the
    generate success is displayed; after the failed analyze the slot holds
    [null] and nothing is displayed, while 'Not Found' is shown. *)
Lemma failed_analyze_drops_displayed_pipeline :
  let w := with_formData sample_form mount in
  let w1 := after Generate (answering empty_pipeline) w in
  let w2 := after Analyze (rejecting not_found) w1 in
  App.visualizer (App.view w1) = Some empty_pipeline /\
  pipeline w2 <> pipeline w1 /\
  pipeline w2 = JNull /\
  App.visualizer (App.view w2) = None /\
  App.error_box (App.view w2) = Some (JStr "Not Found").
Proof. repeat split. cbn. discriminate. Qed.

(** C3 as stated fails on a local validation failure: the guard of lines 23-26
    and 42-45 returns before [onLoadingChange(true)], so the loading observer
    is not notified at all.  It also fails for a rejection whose [detail] is
    not a string: the value is handed to the error observer as it is. *)
Lemma validation_failure_skips_loading :
  fails Generate (answering empty_pipeline) (formData mount) /\
  loading_calls (calls (after Generate (answering empty_pipeline) mount)) = [] /\
  loading_calls (calls (after Generate (answering empty_pipeline) mount))
    <> [true; false] /\
  loading_calls (calls (after Analyze (answering empty_pipeline) mount))
    <> [true; false] /\
  error_calls (calls (after Generate (rejecting unprocessable)
                        (with_formData sample_form mount))) =
    [JArr [JObj [("msg", JStr "field required")]]].
Proof.
  split; [left; reflexivity|].
  repeat split; cbn; discriminate.
Qed.

(** C3, as the code has it.  For every failed generate or analyze call the
    operation completes normally and the error observer is called exactly once,
    with a truthy value (hence a non-empty string whenever it is a string).
    When the failure is a rejected request, the loading observer is notified
    with exactly [true] before the request and [false] after the error was
    reported.  When the failure is a local validation failure, the loading
    observer is not notified and no request is made. *)
Theorem failure_reports_once (op : Operation) (net : Network) (w : World) :
  fails op net (formData w) ->
  exists msg,
    fst (submit op net w) = Normal tt /\
    calls (after op net w) = calls w ++ failure_calls op (formData w) msg /\
    error_calls (failure_calls op (formData w) msg) = [msg] /\
    truthy msg = true /\
    (forall s, msg = JStr s -> s <> "") /\
    loading_calls (failure_calls op (formData w) msg) =
      (if nothing_provided (formData w) then [] else [true; false]) /\
    post_calls (failure_calls op (formData w) msg) =
      (if nothing_provided (formData w) then []
       else [(endpoint op, formData w)]).
Proof.
  intros [Hv | (err & Hnet & Hn)].
  - exists (JStr (validation_message op)).
    unfold after, failure_calls.
    rewrite (submit_invalid op net w Hv), Hv; cbn.
    repeat split.
    + destruct op; reflexivity.
    + intros s [= <-]; destruct op; discriminate.
  - destruct (nothing_provided (formData w)) eqn:Hv.
    + exists (JStr (validation_message op)).
      unfold after, failure_calls.
      rewrite (submit_invalid op net w Hv), Hv; cbn.
      repeat split.
      * destruct op; reflexivity.
      * intros s [= <-]; destruct op; discriminate.
    + exists (resolved_message op err).
      unfold after, failure_calls.
      rewrite (submit_rejected op net w err Hv Hnet Hn), Hv; cbn.
      pose proof (resolved_message_truthy op err) as Ht.
      repeat split; try assumption.
      intros s E; rewrite E in Ht; cbn in Ht.
      intros ->; discriminate.
Qed.

Lemma failure_reports_once_not_found :
  exists msg,
    fst (submit Generate (rejecting not_found)
           (with_formData sample_form mount)) = Normal tt /\
    calls (after Generate (rejecting not_found) (with_formData sample_form mount))
      = failure_calls Generate sample_form msg /\
    error_calls (failure_calls Generate sample_form msg) = [msg] /\
    truthy msg = true /\
    (forall s, msg = JStr s -> s <> "") /\
    loading_calls (failure_calls Generate sample_form msg) = [true; false] /\
    post_calls (failure_calls Generate sample_form msg) =
      [("/api/generate-pipeline", sample_form)].
Proof.
  exact (failure_reports_once Generate (rejecting not_found)
           (with_formData sample_form mount)
           (or_intror (ex_intro _ not_found (conj eq_refl eq_refl)))).
Defined.

(** C4.  For every generate or analyze request that is rejected with an error
    value, the message given to the error observer is the server's [detail]
    when it is present, else the [message] of the error when it is present,
    else the fallback of the operation ('Failed to generate pipeline', 'Failed
    to analyze repository'); present as [||] tests it, there and truthy. *)
Theorem error_message_resolution
        (op : Operation) (net : Network) (w : World) (err : JsVal) :
  nothing_provided (formData w) = false ->
  net (endpoint op) (formData w) = Rejected err ->
  nullish err = false ->
  error_calls (calls (after op net w)) =
    error_calls (calls w) ++ [resolved_message op err] /\
  error (after op net w) = resolved_message op err /\
  fallback_message Generate = "Failed to generate pipeline" /\
  fallback_message Analyze = "Failed to analyze repository".
Proof.
  intros Hv Hnet Hn.
  unfold after; rewrite (submit_rejected op net w err Hv Hnet Hn); cbn.
  rewrite error_calls_app; cbn.
  repeat split.
Qed.

(** Scenario 3: a rejection carrying [{response:{data:{detail:'Not Found'}}}]
    yields exactly 'Not Found'. *)
Lemma error_message_resolution_not_found :
  error_calls (calls (after Analyze (rejecting not_found)
                        (with_formData sample_form mount))) =
    [JStr "Not Found"] /\
  error (after Analyze (rejecting not_found) (with_formData sample_form mount))
    = JStr "Not Found" /\
  fallback_message Generate = "Failed to generate pipeline" /\
  fallback_message Analyze = "Failed to analyze repository".
Proof.
  exact (error_message_resolution Analyze (rejecting not_found)
           (with_formData sample_form mount) not_found
           eq_refl eq_refl eq_refl).
Defined.

Lemma get_total (v : JsVal) (name : string) :
  nullish v = false -> exists x, get v name = Normal x.
Proof.
  destruct v as [ | | b | n | s | items | fields ]; try discriminate; intros _; cbn.
  - eexists; reflexivity.
  - eexists; reflexivity.
  - destruct (String.eqb name "length"); eexists; reflexivity.
  - destruct (String.eqb name "length"); eexists; reflexivity.
  - destruct (assoc name fields); eexists; reflexivity.
Qed.

Lemma analysis_updater_frame (data : JsVal) (f f' : FormState) :
  analysis_updater data f = Normal f' ->
  repository_url f' = repository_url f /\
  repository_content f' = repository_content f.
Proof.
  unfold analysis_updater, cbind.
  destruct (get data "language") as [l|]; [|discriminate].
  destruct (get data "framework") as [fw|]; [|discriminate].
  intros [= <-]; split; reflexivity.
Qed.

Lemma analyze_form_invalid (net : Network) (w : World) :
  nothing_provided (formData w) = true ->
  formData (after Analyze net w) = formData w.
Proof.
  intros Hv. unfold after.
  rewrite (submit_invalid Analyze net w Hv). reflexivity.
Qed.

Lemma analyze_form_rejected (net : Network) (w : World) (err : JsVal) :
  net (endpoint Analyze) (formData w) = Rejected err ->
  formData (after Analyze net w) = formData w.
Proof.
  intros Hnet.
  destruct (nothing_provided (formData w)) eqn:Hv;
    [apply analyze_form_invalid; assumption|].
  destruct (nullish err) eqn:Hn.
  - apply (submit_rejected_nullish Analyze net w err Hv Hnet Hn).
  - unfold after.
    rewrite (submit_rejected Analyze net w err Hv Hnet Hn). reflexivity.
Qed.

Lemma analyze_form_resolved (net : Network) (w : World) (data : JsVal) :
  nothing_provided (formData w) = false ->
  net (endpoint Analyze) (formData w) = Resolved data ->
  formData (after Analyze net w) =
    match analysis_updater data (formData w) with
    | Normal g => g
    | Throw _ => formData w
    end.
Proof.
  intros Hv Hnet. unfold after.
  rewrite (analyze_resolved net w data Hv Hnet); cbn.
  unfold analyzed_world.
  destruct (analysis_updater data (formData w)); reflexivity.
Qed.

Lemma analyze_form_written (net : Network) (w : World) (data l fw : JsVal) :
  nothing_provided (formData w) = false ->
  net (endpoint Analyze) (formData w) = Resolved data ->
  get data "language" = Normal l ->
  get data "framework" = Normal fw ->
  formData (after Analyze net w) =
    mkFormState (repository_url (formData w)) (repository_content (formData w))
                (js_or l (JStr "")) (js_or fw (JStr "")).
Proof.
  intros Hv Hnet Hl Hfw.
  rewrite (analyze_form_resolved net w data Hv Hnet).
  unfold analysis_updater, cbind. rewrite Hl, Hfw. reflexivity.
Qed.

Lemma analyze_form_inputs (net : Network) (w : World) :
  repository_url (formData (after Analyze net w)) = repository_url (formData w) /\
  repository_content (formData (after Analyze net w)) =
    repository_content (formData w).
Proof.
  destruct (nothing_provided (formData w)) eqn:Hv;
    [rewrite analyze_form_invalid; auto|].
  destruct (net (endpoint Analyze) (formData w)) as [data|err] eqn:Hnet.
  - rewrite (analyze_form_resolved net w data Hv Hnet).
    destruct (analysis_updater data (formData w)) as [g|] eqn:Hu; [|auto].
    apply (analysis_updater_frame data (formData w) g Hu).
  - rewrite (analyze_form_rejected net w err Hnet); auto.
Qed.

(** C7.  An analyze call never changes [repository_url] and
    [repository_content]; a failed one (refused locally, or rejected with any
    error) changes no field of the form; a successful one, answered with
    [data], writes [data.language || ''] to [language] and
    [data.framework || ''] to [framework]. *)
Theorem analyze_writes_only_language_and_framework (net : Network) (w : World) :
  let f := formData w in
  let f' := formData (after Analyze net w) in
  (repository_url f' = repository_url f /\
   repository_content f' = repository_content f) /\
  (nothing_provided f = true -> f' = f) /\
  (forall err, net (endpoint Analyze) f = Rejected err -> f' = f) /\
  (forall data l fw,
      nothing_provided f = false ->
      net (endpoint Analyze) f = Resolved data ->
      get data "language" = Normal l ->
      get data "framework" = Normal fw ->
      f' = mkFormState (repository_url f) (repository_content f)
                       (js_or l (JStr "")) (js_or fw (JStr ""))).
Proof.
  intros f f'. subst f f'.
  split; [apply analyze_form_inputs|].
  split; [apply analyze_form_invalid|].
  split; [apply analyze_form_rejected|].
  intros data l fw. apply analyze_form_written.
Qed.

Lemma analyze_writes_only_language_and_framework_sample :
  formData (after Analyze
              (answering (JObj [("language", JStr "Python");
                                ("framework", JStr "Django")]))
              (with_formData sample_form mount)) =
    mkFormState "https://github.com/user/repo" ""
                (JStr "Python") (JStr "Django") /\
  formData (after Analyze (rejecting not_found)
              (with_formData sample_form mount)) = sample_form.
Proof.
  split.
  - exact (proj2 (proj2 (proj2
             (analyze_writes_only_language_and_framework
                (answering (JObj [("language", JStr "Python");
                                  ("framework", JStr "Django")]))
                (with_formData sample_form mount))))
             _ (JStr "Python") (JStr "Django")
             eq_refl eq_refl eq_refl eq_refl).
  - exact (proj1 (proj2 (proj2
             (analyze_writes_only_language_and_framework
                (rejecting not_found) (with_formData sample_form mount))))
             not_found eq_refl).
Defined.

(** C9.  Whatever pipeline the coordinator holds, a generate or an analyze
    call made while [repository_url] and [repository_content] are both empty
    makes no request, reports the validation message through the error
    observer, and leaves the pipeline slot [null]: nothing is displayed
    afterwards. *)
Theorem validation_failure_clears_pipeline
        (op : Operation) (net : Network) (w : World) :
  repository_url (formData w) = "" ->
  repository_content (formData w) = "" ->
  pipeline (after op net w) = JNull /\
  App.visualizer (App.view (after op net w)) = None /\
  error (after op net w) = JStr (validation_message op) /\
  error_calls (calls (after op net w)) =
    error_calls (calls w) ++ [JStr (validation_message op)] /\
  post_calls (calls (after op net w)) = post_calls (calls w).
Proof.
  intros Hu Hc.
  unfold after.
  rewrite (submit_invalid op net w (empty_fields_nothing_provided _ Hu Hc)); cbn.
  rewrite error_calls_app, post_calls_app; cbn.
  rewrite app_nil_r.
  repeat split.
Qed.

(** A pipeline is displayed, the user empties the form and clicks: the
    pipeline is gone. *)
Lemma validation_failure_clears_displayed_pipeline :
  let shown := after Generate (answering empty_pipeline)
                 (with_formData sample_form mount) in
  let w := with_formData (mkFormState "" "" (JStr "") (JStr "")) shown in
  App.visualizer (App.view w) = Some empty_pipeline /\
  pipeline (after Analyze (answering empty_pipeline) w) = JNull /\
  App.visualizer (App.view (after Analyze (answering empty_pipeline) w)) = None.
Proof.
  split; [reflexivity|].
  pose proof (validation_failure_clears_pipeline Analyze (answering empty_pipeline)
                (with_formData (mkFormState "" "" (JStr "") (JStr ""))
                   (after Generate (answering empty_pipeline)
                      (with_formData sample_form mount)))
                eq_refl eq_refl) as H.
  exact (conj (proj1 H) (proj1 (proj2 H))).
Defined.

(** C10.  When an analyze request is answered with a [data] whose [language]
    (respectively [framework]) is missing or falsy, the field of the form is
    set to the empty string, whatever it held before. *)
Theorem analyze_blanks_missing_fields (net : Network) (w : World) (data : JsVal) :
  nothing_provided (formData w) = false ->
  net (endpoint Analyze) (formData w) = Resolved data ->
  nullish data = false ->
  let f' := formData (after Analyze net w) in
  (forall l, get data "language" = Normal l -> truthy l = false ->
             language f' = JStr "") /\
  (forall fw, get data "framework" = Normal fw -> truthy fw = false ->
              framework f' = JStr "") /\
  (field data "language" = None -> language f' = JStr "") /\
  (field data "framework" = None -> framework f' = JStr "").
Proof.
  intros Hv Hnet Hn f'.
  destruct (get_total data "language" Hn) as [l Hl].
  destruct (get_total data "framework" Hn) as [fw Hfw].
  assert (E : f' = mkFormState (repository_url (formData w))
                     (repository_content (formData w))
                     (js_or l (JStr "")) (js_or fw (JStr ""))).
  { unfold f'. apply (analyze_form_written net w data); assumption. }
  rewrite E; cbn.
  assert (Hfalsy : forall x, truthy x = false -> js_or x (JStr "") = JStr "").
  { intros x Hx; unfold js_or; rewrite Hx; reflexivity. }
  repeat split.
  - intros l0 Hl0 Ht. rewrite Hl in Hl0. injection Hl0 as ->. auto.
  - intros fw0 Hfw0 Ht. rewrite Hfw in Hfw0. injection Hfw0 as ->. auto.
  - intros Hnone. apply Hfalsy.
    destruct data; cbn in *; try discriminate; try (injection Hl as <-; reflexivity).
    rewrite Hnone in Hl. injection Hl as <-. reflexivity.
  - intros Hnone. apply Hfalsy.
    destruct data; cbn in *; try discriminate; try (injection Hfw as <-; reflexivity).
    rewrite Hnone in Hfw. injection Hfw as <-. reflexivity.
Qed.

(** The user had typed 'Python' and 'Django'; the answer names no language
    and an empty framework. *)
Lemma analyze_blanks_typed_language :
  let typed := mkFormState "https://github.com/user/repo" ""
                           (JStr "Python") (JStr "Django") in
  let f' := formData (after Analyze (answering (JObj [("framework", JStr "")]))
                        (with_formData typed mount)) in
  language f' = JStr "" /\ framework f' = JStr "".
Proof.
  pose proof (analyze_blanks_missing_fields
                (answering (JObj [("framework", JStr "")]))
                (with_formData
                   (mkFormState "https://github.com/user/repo" ""
                                (JStr "Python") (JStr "Django")) mount)
                (JObj [("framework", JStr "")])
                eq_refl eq_refl eq_refl) as H.
  exact (conj (proj1 (proj2 (proj2 H)) eq_refl)
              (proj1 (proj2 H) (JStr "") eq_refl eq_refl)).
Defined.

(** Scenario 1 and its generalisation.  A generate call on a form that gives a
    URL or some content, answered with [data]: the loading observer is
    notified with [true] before the request and [false] after it, the pipeline
    observer receives exactly [data], the error observer is not called, and
    the coordinator holds [data] with no error. *)
Theorem generate_success_delivers_pipeline
        (net : Network) (w : World) (data : JsVal) :
  nothing_provided (formData w) = false ->
  net (endpoint Generate) (formData w) = Resolved data ->
  fst (submit Generate net w) = Normal tt /\
  calls (after Generate net w) =
    calls w ++ [ CallOnLoadingChange true;
                 CallPost "/api/generate-pipeline" (formData w);
                 CallOnPipelineGenerated data;
                 CallOnLoadingChange false ] /\
  pipeline (after Generate net w) = data /\
  error (after Generate net w) = JNull /\
  loading (after Generate net w) = false /\
  formData (after Generate net w) = formData w.
Proof.
  intros Hv Hnet. unfold after.
  rewrite (generate_resolved net w data Hv Hnet). repeat split.
Qed.

Lemma generate_success_delivers_pipeline_scenario :
  calls (after Generate (answering empty_pipeline)
           (with_formData sample_form mount)) =
    [ CallOnLoadingChange true;
      CallPost "/api/generate-pipeline" sample_form;
      CallOnPipelineGenerated empty_pipeline;
      CallOnLoadingChange false ] /\
  pipeline (after Generate (answering empty_pipeline)
              (with_formData sample_form mount)) = empty_pipeline.
Proof.
  pose proof (generate_success_delivers_pipeline (answering empty_pipeline)
                (with_formData sample_form mount) empty_pipeline
                eq_refl eq_refl) as H.
  exact (conj (proj1 (proj2 H)) (proj1 (proj2 (proj2 H)))).
Defined.

(** A successful analyze call reports [null] through the error observer, which
    is [handleError] of the coordinator: the error is cleared, and so is the
    pipeline slot, so a pipeline displayed before the call is no longer
    displayed after it. *)
Theorem analyze_success_clears_error_and_pipeline
        (net : Network) (w : World) (data : JsVal) :
  nothing_provided (formData w) = false ->
  net (endpoint Analyze) (formData w) = Resolved data ->
  fst (submit Analyze net w) = Normal tt /\
  calls (after Analyze net w) =
    calls w ++ [ CallOnLoadingChange true;
                 CallPost "/api/analyze-repository" (formData w);
                 CallOnError JNull;
                 CallOnLoadingChange false ] /\
  error (after Analyze net w) = JNull /\
  pipeline (after Analyze net w) = JNull /\
  App.visualizer (App.view (after Analyze net w)) = None.
Proof.
  intros Hv Hnet. unfold after.
  rewrite (analyze_resolved net w data Hv Hnet).
  unfold analyzed_world.
  destruct (analysis_updater data (formData w)); repeat split.
Qed.

Lemma analyze_success_clears_displayed_pipeline :
  let shown := after Generate (answering empty_pipeline)
                 (with_formData sample_form mount) in
  App.visualizer (App.view shown) = Some empty_pipeline /\
  App.visualizer
    (App.view (after Analyze (answering (JObj [("language", JStr "Python")]))
                 shown)) = None.
Proof.
  split; [reflexivity|].
  exact (proj2 (proj2 (proj2 (proj2
           (analyze_success_clears_error_and_pipeline
              (answering (JObj [("language", JStr "Python")]))
              (after Generate (answering empty_pipeline)
                 (with_formData sample_form mount))
              (JObj [("language", JStr "Python")]) eq_refl eq_refl))))).
Defined.

End FormClaims.

(* ===================================================================== *)
(** ** The renderer *)
(* ===================================================================== *)

Section RendererClaims.

Import Visualizer.

Lemma read_only_ret {S A : Type} (a : A) : read_only (@ret S A a).
Proof. intros s; reflexivity. Qed.

Lemma read_only_lift {S A : Type} (c : Completion A) : read_only (@lift S A c).
Proof. intros s; reflexivity. Qed.

Lemma read_only_gets {S A : Type} (f : S -> A) : read_only (gets f).
Proof. intros s; reflexivity. Qed.

Lemma read_only_bind {S A B : Type} (m : M S A) (k : A -> M S B) :
  read_only m -> (forall a, read_only (k a)) -> read_only (bind m k).
Proof.
  intros Hm Hk s. unfold bind.
  specialize (Hm s).
  destruct (m s) as [[a|e] s']; cbn in *; subst s'.
  - apply Hk.
  - reflexivity.
Qed.

Lemma read_only_map_M {S A B : Type} (f : A -> M S B) (xs : list A) :
  (forall x, read_only (f x)) -> read_only (map_M f xs).
Proof.
  intros Hf. induction xs as [|x rest IH]; cbn.
  - apply read_only_ret.
  - apply read_only_bind; [apply Hf|]. intros y.
    apply read_only_bind; [apply IH|]. intros ys.
    apply read_only_ret.
Qed.

(** Splits a statement into its steps, each of which only reads. *)
Ltac only_reads :=
  repeat first
    [ apply read_only_ret
    | apply read_only_lift
    | apply read_only_gets
    | apply read_only_map_M; intros ?
    | apply read_only_bind; [|intros ?]
    | match goal with
      | |- read_only (if ?b then _ else _) => destruct b
      | |- read_only (match ?x with _ => _ end) => destruct x
      end ].

Lemma read_only_stage_icon (type : string) : read_only (stage_icon type).
Proof. unfold stage_icon, read_stageIcons. only_reads. Qed.

Lemma read_only_render_stage (stage : JsVal) : read_only (render_stage stage).
Proof.
  unfold render_stage.
  apply read_only_bind; [apply read_only_lift|]. intros type.
  destruct type; try apply read_only_lift.
  apply read_only_bind; [apply read_only_stage_icon|]. intros icon.
  only_reads.
Qed.

Lemma read_only_PipelineVisualizer (gt : JsVal -> Completion bool) (p : JsVal) :
  read_only (PipelineVisualizer gt p).
Proof.
  unfold PipelineVisualizer.
  destruct (negb (truthy p)); [apply read_only_ret|].
  apply read_only_bind; [apply read_only_lift|]. intros stages.
  destruct (negb (truthy stages)); [apply read_only_ret|].
  apply read_only_bind; [apply read_only_lift|]. intros stage_values.
  apply read_only_bind;
    [apply read_only_map_M; apply read_only_render_stage|]. intros nodes.
  only_reads.
Qed.

(** C8.  Rendering reads the module's state and its prop and writes nothing:
    the state of the module after a rendering is the state before it, and so a
    second rendering of the same document gives the same display, whatever
    the document. *)
Theorem rendering_is_pure
        (gt : JsVal -> Completion bool) (st : Store) (p : JsVal) :
  let first := PipelineVisualizer gt p st in
  let second := PipelineVisualizer gt p (snd first) in
  snd first = st /\ snd second = st /\ fst second = fst first.
Proof.
  intros first second.
  assert (E : snd first = st) by apply read_only_PipelineVisualizer.
  unfold second. rewrite E. fold first. rewrite E. repeat split.
Qed.

Lemma PipelineVisualizer_absent
      (gt : JsVal -> Completion bool) (st : Store) (p : JsVal) :
  absent p -> PipelineVisualizer gt p st = (Normal None, st).
Proof. intros [-> | ->]; reflexivity. Qed.

Lemma PipelineVisualizer_no_stages
      (gt : JsVal -> Completion bool) (st : Store) (p : JsVal) :
  has_no_stages p -> PipelineVisualizer gt p st = (Normal None, st).
Proof.
  intros (fields & -> & Hnone).
  unfold PipelineVisualizer, bind, lift; cbn. rewrite Hnone. reflexivity.
Qed.

(** With an array of stages the component gets past line 47: it returns an
    element, or throws while it builds one. *)
Lemma PipelineVisualizer_stages
      (gt : JsVal -> Completion bool) (st : Store)
      (fields : list (string * JsVal)) (items : list JsVal) :
  assoc "stages" fields = Some (JArr items) ->
  fst (PipelineVisualizer gt (JObj fields) st) <> Normal None.
Proof.
  intros Hs.
  unfold PipelineVisualizer, bind, lift; cbn. rewrite Hs; cbn.
  destruct (map_M render_stage items st) as [[nodes|e] st']; cbn;
    [|discriminate].
  destruct (render_summary gt (JObj fields)) as [summary|e]; cbn; discriminate.
Qed.

(** With a truthy [stages] the component gets past line 47 too, whatever the
    value is: it returns an element or throws. *)
Lemma PipelineVisualizer_truthy_stages
      (gt : JsVal -> Completion bool) (st : Store)
      (fields : list (string * JsVal)) (stages : JsVal) :
  assoc "stages" fields = Some stages ->
  truthy stages = true ->
  fst (PipelineVisualizer gt (JObj fields) st) <> Normal None.
Proof.
  intros Hs Ht.
  destruct (map_receiver stages) as [items|e] eqn:Hmap.
  - destruct stages; try discriminate Hmap.
    injection Hmap as ->.
    exact (PipelineVisualizer_stages gt st fields items Hs).
  - unfold PipelineVisualizer, bind, lift; cbn -[map_receiver truthy].
    rewrite Hs; cbn -[map_receiver truthy]. rewrite Ht, Hmap; cbn.
    discriminate.
Qed.

Lemma PipelineVisualizer_falsy_stages
      (gt : JsVal -> Completion bool) (st : Store) (p : JsVal) :
  truthy p = true ->
  stages_missing_or_falsy p ->
  fst (PipelineVisualizer gt p st) = Normal None.
Proof.
  unfold stages_missing_or_falsy, field. intros Hp Hs.
  unfold PipelineVisualizer. rewrite Hp. cbn [negb].
  destruct p as [ | | b | n | x | items | fields ];
    try discriminate Hp; unfold bind, lift; cbn; try reflexivity.
  destruct (assoc "stages" fields) as [stages|]; cbn; [|reflexivity].
  rewrite Hs. reflexivity.
Qed.

(** For a prop of the specified type the words of C5 hold as they stand: the
    component renders nothing exactly when the pipeline is absent or has no
    [stages]. *)
Lemma typed_document_renders_nothing_iff
      (gt : JsVal -> Completion bool) (st : Store) (p : JsVal) :
  PipelineDocument_shape p ->
  (fst (PipelineVisualizer gt p st) = Normal None <->
   absent p \/ has_no_stages p).
Proof.
  intros Hshape. split.
  - intros Hnone.
    destruct Hshape as [Ha | (fields & -> & Harr)]; [left; exact Ha|].
    destruct (assoc "stages" fields) as [v|] eqn:Hs.
    + destruct (Harr v eq_refl) as [items ->].
      exfalso. exact (PipelineVisualizer_stages gt st fields items Hs Hnone).
    + right. exists fields. split; [reflexivity | exact Hs].
  - intros [Ha | Hn].
    + rewrite (PipelineVisualizer_absent gt st p Ha); reflexivity.
    + rewrite (PipelineVisualizer_no_stages gt st p Hn); reflexivity.
Qed.

(** C5 as stated fails: a document whose [stages] is [null] has the field and
    is not absent, and the component renders nothing for it ([!pipeline.stages]
    of line 45 tests the value, not the presence). *)
Lemma null_stages_render_nothing :
  field (JObj [("stages", JNull)]) "stages" = Some JNull /\
  ~ (absent (JObj [("stages", JNull)]) \/
     has_no_stages (JObj [("stages", JNull)])) /\
  fst (PipelineVisualizer never_positive (JObj [("stages", JNull)]) module_init)
    = Normal None.
Proof.
  split; [reflexivity|]. split; [|reflexivity].
  intros [[H | H] | (fields & Hobj & Hnone)]; try discriminate H.
  injection Hobj as <-. discriminate Hnone.
Qed.

(** C5, as the code has it.  For every pipeline prop, the component renders
    nothing exactly when the pipeline is falsy (absent) or its [stages] is
    missing or falsy; a document whose [stages] is the empty array and that
    has no [summary] is rendered as the pipeline container, holding the card
    with its heading and no stage, and no summary section. *)
Theorem renders_nothing_iff_no_stages
        (gt : JsVal -> Completion bool) (st : Store) (p : JsVal) :
  (fst (PipelineVisualizer gt p st) = Normal None <->
   truthy p = false \/ stages_missing_or_falsy p) /\
  (forall fields,
      p = JObj fields ->
      assoc "stages" fields = Some (JArr []) ->
      assoc "summary" fields = None ->
      fst (PipelineVisualizer gt p st) =
        Normal (Some
          (Element "div" (Some "pipeline-container")
             [ Element "div" (Some "card")
                 [ Element "h2" None [Text "Generated Test Pipeline"];
                   Items [] ];
               Value JUndefined ]))).
Proof.
  split.
  - split.
    + intros Hnone.
      destruct (truthy p) eqn:Hp; [right | left; reflexivity].
      unfold stages_missing_or_falsy, field.
      destruct p as [ | | b | n | x | items | fields ]; try exact I.
      destruct (assoc "stages" fields) as [stages|] eqn:Hs; [|exact I].
      destruct (truthy stages) eqn:Ht; [|reflexivity].
      exfalso.
      exact (PipelineVisualizer_truthy_stages gt st fields stages Hs Ht Hnone).
    + intros [Hfalsy | Hlacks].
      * unfold PipelineVisualizer. rewrite Hfalsy. reflexivity.
      * destruct (truthy p) eqn:Hp.
        -- exact (PipelineVisualizer_falsy_stages gt st p Hp Hlacks).
        -- unfold PipelineVisualizer. rewrite Hp. reflexivity.
  - intros fields -> Hstages Hsummary.
    unfold PipelineVisualizer, render_summary, bind, lift, cbind; cbn.
    rewrite Hstages; cbn. rewrite Hsummary; cbn. reflexivity.
Qed.

Lemma renders_empty_pipeline_container :
  fst (PipelineVisualizer never_positive empty_pipeline module_init) =
    Normal (Some
      (Element "div" (Some "pipeline-container")
         [ Element "div" (Some "card")
             [ Element "h2" None [Text "Generated Test Pipeline"];
               Items [] ];
           Value JUndefined ])) /\
  (fst (PipelineVisualizer never_positive (JObj [("summary", JStr "s")])
          module_init) = Normal None) /\
  (fst (PipelineVisualizer never_positive (JObj [("stages", JNum 0)])
          module_init) = Normal None).
Proof.
  split; [|split].
  - exact (proj2 (renders_nothing_iff_no_stages never_positive module_init
                    empty_pipeline) _ eq_refl eq_refl eq_refl).
  - exact (proj2 (proj1 (renders_nothing_iff_no_stages never_positive
                           module_init (JObj [("summary", JStr "s")])))
                 (or_intror I)).
  - exact (proj2 (proj1 (renders_nothing_iff_no_stages never_positive
                           module_init (JObj [("stages", JNum 0)])))
                 (or_intror eq_refl)).
Defined.

(** C6 fails on the code for a [type] that names a property every object
    inherits: [stageIcons['constructor']] is the function [Object], a truthy
    value, so line 60 does not fall back to [stageIcons.code_quality].  The
    stage of scenario 4 ('custom_type') gets the fallback icon and the label
    'custom type'; the same stage with the type 'constructor' gets the
    inherited function in place of an icon. *)
Theorem inherited_key_is_not_the_fallback_icon :
  assoc "constructor" (stageIcons module_init) = None /\
  fst (stage_icon "custom_type" module_init) = Normal (IconElement code_quality) /\
  fst (stage_icon "constructor" module_init) =
    Normal (InheritedMember "constructor") /\
  fst (render_stage (sample_stage "constructor") module_init) =
    Normal
      (Element "div" (Some "pipeline-stage")
         [ Element "div" (Some "stage-header")
             [ Element "div" (Some "stage-title")
                 [ IconChild (InheritedMember "constructor");
                   Value (JStr "Custom Stage") ];
               Element "div" None
                 [ Element "span" (Some "stage-type-badge stage-type-constructor")
                     [Value (JStr "constructor")] ] ];
           Element "div" (Some "stage-description")
             [Value (JStr "A custom stage type")];
           Element "div" (Some "stage-details")
             [ Element "div" (Some "detail-section")
                 [ Element "h4" None [Text "Commands to Run:"];
                   Element "ul" None
                     [Items [Element "li" None [Value (JStr "echo hello")]]] ];
               Element "div" (Some "detail-section")
                 [ Element "h4" None [Text "Tools & Frameworks:"];
                   Element "ul" None
                     [Items [Element "li" None [Value (JStr "CustomTool")]]] ] ];
           Element "div" None
             [ Element "svg" None
                 [Element "circle" None []; Element "polyline" None []];
               Element "span" (Some "stage-duration")
                 [Text "Estimated Duration: "; Value (JStr "2m")] ] ]).
Proof. repeat split. Qed.





Lemma map_M_in_order {S A B : Type} (f : A -> M S B) (xs : list A)
      (s s' : S) (ys : list B) :
  (forall x, read_only (f x)) ->
  map_M f xs s = (Normal ys, s') ->
  Forall2 (fun x y => fst (f x s) = Normal y) xs ys.
Proof.
  intros Hf. revert ys s'.
  induction xs as [|x rest IH]; intros ys s' Hrun; cbn in Hrun.
  - injection Hrun as <- _. constructor.
  - unfold bind in Hrun.
    pose proof (Hf x s) as Hx.
    destruct (f x s) as [[y|e] s1] eqn:Ex; cbn in Hx; subst s1;
      [|discriminate].
    destruct (map_M f rest s) as [[ys'|e] s2] eqn:Erest; [|discriminate].
    injection Hrun as <- _.
    constructor; [rewrite Ex; reflexivity | eapply IH; reflexivity].
Qed.

(** The stages are displayed one entry each, in the order of the document:
    when a document with the array [items] of stages is rendered, the card of
    the container holds the heading followed by the entries of [items], entry
    by entry what [render_stage] makes of the stage. *)
Theorem stages_render_in_order
        (gt : JsVal -> Completion bool) (st : Store)
        (fields : list (string * JsVal)) (items : list JsVal) (tree : Node) :
  assoc "stages" fields = Some (JArr items) ->
  fst (PipelineVisualizer gt (JObj fields) st) = Normal (Some tree) ->
  exists nodes summary,
    tree = Element "div" (Some "pipeline-container")
             [ Element "div" (Some "card")
                 [ Element "h2" None [Text "Generated Test Pipeline"];
                   Items nodes ];
               summary ] /\
    Forall2 (fun stage node => fst (render_stage stage st) = Normal node)
            items nodes.
Proof.
  intros Hs.
  unfold PipelineVisualizer, bind, lift; cbn. rewrite Hs; cbn.
  destruct (map_M render_stage items st) as [[nodes|e] st'] eqn:Emap; cbn;
    [|discriminate].
  destruct (render_summary gt (JObj fields)) as [summary|e]; cbn;
    [|discriminate].
  intros [= <-]. exists nodes, summary. split; [reflexivity|].
  exact (map_M_in_order render_stage items st st' nodes
           read_only_render_stage Emap).
Qed.

Lemma stages_render_in_order_sample :
  exists nodes,
    Forall2 (fun stage node => fst (render_stage stage module_init) = Normal node)
            [sample_stage "custom_type"; sample_stage "security_test"] nodes.
Proof.
  destruct (stages_render_in_order never_positive module_init
              [("stages", JArr [sample_stage "custom_type";
                                sample_stage "security_test"])]
              [sample_stage "custom_type"; sample_stage "security_test"]
              _ eq_refl eq_refl) as (nodes & _ & _ & H).
  exists nodes. exact H.
Defined.

End RendererClaims.

(* ===================================================================== *)
(** ** Edits of the form, and what every click does *)
(* ===================================================================== *)

Section FieldClaims.

Import RepositoryForm Fields.

Lemma handleChange_run (target : Input) (value : string) (w : World) :
  handleChange target value w =
    (Normal tt,
     with_formData (with_property (input_name target) value (formData w)) w).
Proof. reflexivity. Qed.

(** An edit writes the text to the field that was edited and to nothing else:
    the field then holds the text, the three other fields hold what they held,
    no prop is called and no request is made, and the coordinator's pipeline,
    error and loading flag stay as they were. *)
Theorem edit_writes_one_field (target : Input) (value : string) (w : World) :
  let w' := snd (handleChange target value w) in
  fst (handleChange target value w) = Normal tt /\
  input_value target (formData w') = JStr value /\
  (forall other, other <> target ->
     input_value other (formData w') = input_value other (formData w)) /\
  calls w' = calls w /\
  pipeline w' = pipeline w /\
  error w' = error w /\
  loading w' = loading w /\
  render_error w' = render_error w.
Proof.
  rewrite handleChange_run; cbn.
  repeat split.
  - destruct target; reflexivity.
  - intros other Hne.
    destruct target, other; try reflexivity; contradiction Hne; reflexivity.
Qed.

Lemma with_property_same (i : Input) (u v : string) (f : FormState) :
  with_property (input_name i) v (with_property (input_name i) u f) =
  with_property (input_name i) v f.
Proof. destruct i; reflexivity. Qed.

Lemma with_property_swap (i j : Input) (u v : string) (f : FormState) :
  i <> j ->
  with_property (input_name j) v (with_property (input_name i) u f) =
  with_property (input_name i) u (with_property (input_name j) v f).
Proof.
  intros Hne. destruct i, j; try reflexivity; contradiction Hne; reflexivity.
Qed.

(** Edits compose as writes do: of two edits of the same field the later one
    wins, and edits of two different fields give the same form in either
    order. *)
Theorem edits_compose (w : World) (u v : string) :
  (forall i,
     snd (handleChange i v (snd (handleChange i u w))) =
     snd (handleChange i v w)) /\
  (forall i j, i <> j ->
     snd (handleChange j v (snd (handleChange i u w))) =
     snd (handleChange i u (snd (handleChange j v w)))).
Proof.
  split.
  - intros i. rewrite !handleChange_run; cbn.
    unfold with_formData; cbn. rewrite with_property_same. reflexivity.
  - intros i j Hne. rewrite !handleChange_run; cbn.
    unfold with_formData; cbn. rewrite (with_property_swap i j u v _ Hne).
    reflexivity.
Qed.

(** The calls of a click whose form passes the validation, on every path:
    loading on, the request, at most one report, loading off. *)
Lemma valid_click_calls (op : Operation) (net : Network) (w : World) :
  nothing_provided (formData w) = false ->
  exists report,
    calls (after op net w) =
      calls w ++ [CallOnLoadingChange true; CallPost (endpoint op) (formData w)]
              ++ report ++ [CallOnLoadingChange false] /\
    loading_calls report = [] /\
    post_calls report = [] /\
    loading (after op net w) = false.
Proof.
  intros Hv.
  destruct (net (endpoint op) (formData w)) as [data|err] eqn:Hnet.
  - destruct op.
    + exists [CallOnPipelineGenerated data]. unfold after.
      rewrite (generate_resolved net w data Hv Hnet). repeat split.
    + exists [CallOnError JNull]. unfold after.
      rewrite (analyze_resolved net w data Hv Hnet). unfold analyzed_world.
      destruct (analysis_updater data (formData w)); repeat split.
  - destruct (nullish err) eqn:Hn.
    + exists [].
      assert (Hrun : submit op net w =
                (Throw (TypeError (match err with
                                   | JNull => "Cannot read properties of null"
                                   | _ => "Cannot read properties of undefined"
                                   end)),
                 mkWorld (formData w) (pipeline w) false (error w)
                         (render_error w)
                         (calls w ++ [ CallOnLoadingChange true;
                                       CallPost (endpoint op) (formData w);
                                       CallOnLoadingChange false ]))).
      { destruct err; try discriminate;
          destruct op; cbn [endpoint] in Hnet;
          unfold submit, App.submitGenerate, App.submitAnalyze,
            handleSubmit, handleAnalyze, try_catch_finally, axios_post, bind,
            gets, lift; cbn; rewrite Hv; cbn; rewrite Hnet; cbn; world_eq. }
      unfold after. rewrite Hrun. repeat split.
    + exists [CallOnError (resolved_message op err)]. unfold after.
      rewrite (submit_rejected op net w err Hv Hnet Hn). repeat split.
Qed.

(** Every click makes one request when the form gives a URL or some content,
    and none otherwise, whatever the backend answers: the request goes to the
    endpoint of the operation and carries the form as it was at the click.
    The loading observer is told [true] then [false] around the request (and
    nothing when there is none), so the click ends with the flag off unless it
    made no request. *)
Theorem one_request_per_valid_click (op : Operation) (net : Network) (w : World) :
  post_calls (calls (after op net w)) =
    post_calls (calls w) ++
    (if nothing_provided (formData w) then [] else [(endpoint op, formData w)]) /\
  loading_calls (calls (after op net w)) =
    loading_calls (calls w) ++
    (if nothing_provided (formData w) then [] else [true; false]) /\
  loading (after op net w) =
    (if nothing_provided (formData w) then loading w else false).
Proof.
  destruct (nothing_provided (formData w)) eqn:Hv.
  - unfold after. rewrite (submit_invalid op net w Hv); cbn.
    rewrite post_calls_app, loading_calls_app; cbn.
    repeat split.
  - destruct (valid_click_calls op net w Hv) as (report & Hc & Hl & Hp & Hoff).
    rewrite Hc, Hoff.
    rewrite !post_calls_app, !loading_calls_app, Hl, Hp; cbn.
    repeat split.
Qed.

Lemma typed_text_passes_validation (target : Input) (value : string) (f : FormState) :
  target = url_input \/ target = content_input ->
  value <> "" ->
  nothing_provided (with_property (input_name target) value f) = false.
Proof.
  intros Ht Hne.
  assert (E : String.eqb value "" = false) by (apply String.eqb_neq; exact Hne).
  unfold nothing_provided.
  destruct Ht as [-> | ->]; cbn; rewrite E; cbn;
    [reflexivity | apply andb_false_r].
Qed.

(** Typing a non-empty text into the URL field or the content field makes the
    next click a request: whatever the form held before and whichever button
    is clicked, exactly one request is added, to the endpoint of the
    operation, and its body is the form as edited, holding the typed text. *)
Theorem typed_text_is_posted
        (op : Operation) (net : Network) (w : World)
        (target : Input) (value : string) :
  target = url_input \/ target = content_input ->
  value <> "" ->
  let w1 := snd (handleChange target value w) in
  post_calls (calls (after op net w1)) =
    post_calls (calls w) ++ [(endpoint op, formData w1)] /\
  input_value target (formData w1) = JStr value /\
  formData w1 = with_property (input_name target) value (formData w).
Proof.
  intros Ht Hne w1.
  assert (Hv : nothing_provided (formData w1) = false).
  { unfold w1. rewrite handleChange_run; cbn.
    apply typed_text_passes_validation; assumption. }
  destruct (valid_click_calls op net w1 Hv) as (report & Hc & _ & Hp & _).
  rewrite Hc, !post_calls_app, Hp; cbn.
  repeat split.
  destruct Ht as [-> | ->]; reflexivity.
Qed.

Lemma typed_url_is_posted_on_mount :
  post_calls (calls (after Generate (answering empty_pipeline)
                       (snd (handleChange url_input "https://github.com/user/repo"
                                          mount)))) =
    [("/api/generate-pipeline", sample_form)].
Proof.
  exact (proj1 (typed_text_is_posted Generate (answering empty_pipeline) mount
                  url_input "https://github.com/user/repo"
                  (or_introl eq_refl)
                  (fun H : "https://github.com/user/repo" = "" =>
                     match H in (_ = s)
                           return (match s with
                                   | EmptyString => False
                                   | String _ _ => True
                                   end) with
                     | eq_refl => I
                     end))).
Defined.

(** A generate call never writes to the form: on every path (refused,
    answered, rejected with any value) the four fields hold what they held at
    the click, and no updater is left to fail. *)
Theorem generate_never_changes_form (net : Network) (w : World) :
  formData (after Generate net w) = formData w /\
  render_error (after Generate net w) = render_error w.
Proof.
  destruct (nothing_provided (formData w)) eqn:Hv.
  - unfold after. rewrite (submit_invalid Generate net w Hv). split; reflexivity.
  - destruct (net (endpoint Generate) (formData w)) as [data|err] eqn:Hnet.
    + unfold after. rewrite (generate_resolved net w data Hv Hnet).
      split; reflexivity.
    + destruct (nullish err) eqn:Hn.
      * destruct err; try discriminate; cbn [endpoint] in Hnet;
          unfold after, submit, App.submitGenerate, handleSubmit,
            try_catch_finally, axios_post, bind, gets, lift; cbn;
          rewrite Hv; cbn; rewrite Hnet; cbn; split; reflexivity.
      * unfold after. rewrite (submit_rejected Generate net w err Hv Hnet Hn).
        split; reflexivity.
Qed.

(** A request rejected with [null] or [undefined] is not reported: reading
    [err.response] in the [catch] block throws, the handler ends with that
    exception, the error observer is not called and the coordinator keeps its
    pipeline and its error; the [finally] block still turns the loading flag
    off. *)
Theorem null_rejection_is_not_reported
        (op : Operation) (net : Network) (w : World) (err : JsVal) :
  nothing_provided (formData w) = false ->
  net (endpoint op) (formData w) = Rejected err ->
  nullish err = true ->
  (exists e, fst (submit op net w) = Throw e) /\
  error_calls (calls (after op net w)) = error_calls (calls w) /\
  loading_calls (calls (after op net w)) = loading_calls (calls w) ++ [true; false] /\
  error (after op net w) = error w /\
  pipeline (after op net w) = pipeline w /\
  loading (after op net w) = false /\
  formData (after op net w) = formData w.
Proof.
  intros Hv Hnet Hn.
  destruct err; try discriminate;
    destruct op; cbn [endpoint] in Hnet;
    unfold after, submit, App.submitGenerate, App.submitAnalyze,
      handleSubmit, handleAnalyze, try_catch_finally, axios_post, bind, gets,
      lift; cbn; rewrite Hv; cbn; rewrite Hnet; cbn;
    (split; [eexists; reflexivity|]);
    unfold with_loading, record_call; cbn;
    rewrite !error_calls_app, !loading_calls_app; cbn;
    rewrite <- ?app_assoc, ?app_nil_r; cbn; repeat split.
Qed.

Lemma null_rejection_keeps_displayed_pipeline :
  let shown := after Generate (answering empty_pipeline)
                 (with_formData sample_form mount) in
  error_calls (calls (after Analyze (rejecting JNull) shown)) = [] /\
  pipeline (after Analyze (rejecting JNull) shown) = empty_pipeline /\
  loading (after Analyze (rejecting JNull) shown) = false.
Proof.
  pose proof (null_rejection_is_not_reported Analyze (rejecting JNull)
                (after Generate (answering empty_pipeline)
                   (with_formData sample_form mount))
                JNull eq_refl eq_refl eq_refl) as H.
  exact (conj (proj1 (proj2 H))
              (conj (proj1 (proj2 (proj2 (proj2 (proj2 H)))))
                    (proj1 (proj2 (proj2 (proj2 (proj2 (proj2 H)))))))).
Defined.

(** An analyze request answered with a body that is [null] or [undefined]:
    the updater given to [setFormData] throws when it reads
    [response.data.language], outside the handler, which goes on as for a
    success.  The form keeps its four fields, the error is left to the next
    rendering, the error observer is told [null] and the loading flag is
    turned off. *)
Theorem analyze_without_body_keeps_form
        (net : Network) (w : World) (data : JsVal) :
  nothing_provided (formData w) = false ->
  net (endpoint Analyze) (formData w) = Resolved data ->
  nullish data = true ->
  fst (submit Analyze net w) = Normal tt /\
  formData (after Analyze net w) = formData w /\
  (exists e, render_error (after Analyze net w) = Some e) /\
  error_calls (calls (after Analyze net w)) = error_calls (calls w) ++ [JNull] /\
  error (after Analyze net w) = JNull /\
  loading (after Analyze net w) = false.
Proof.
  intros Hv Hnet Hn. unfold after.
  rewrite (analyze_resolved net w data Hv Hnet).
  unfold analyzed_world.
  destruct data; try discriminate; cbn;
    rewrite error_calls_app; cbn;
    repeat split; eexists; reflexivity.
Qed.

Lemma analyze_without_body_on_sample :
  formData (after Analyze (answering JNull) (with_formData sample_form mount))
    = sample_form /\
  (exists e, render_error (after Analyze (answering JNull)
                             (with_formData sample_form mount)) = Some e).
Proof.
  pose proof (analyze_without_body_keeps_form (answering JNull)
                (with_formData sample_form mount) JNull
                eq_refl eq_refl eq_refl) as H.
  exact (conj (proj1 (proj2 H)) (proj1 (proj2 (proj2 H)))).
Defined.

End FieldClaims.

(* ===================================================================== *)
(** ** The coordinator under any sequence of callbacks *)
(* ===================================================================== *)

Section CoordinatorClaims.

Import Coordinator.

Lemma run_snoc (cs : list Callback) (c : Callback) (w : World) :
  run (cs ++ [c]) w = snd (invoke c (run cs w)).
Proof. unfold run. rewrite fold_left_app. reflexivity. Qed.

Lemma last_result_snoc (cs : list Callback) (c : Callback) :
  last_result (cs ++ [c]) = if is_result c then Some c else last_result cs.
Proof. unfold last_result. rewrite rev_unit. reflexivity. Qed.

Lemma last_loading_snoc (cs : list Callback) (c : Callback) :
  last_loading (cs ++ [c]) = if is_result c then last_loading cs else Some c.
Proof.
  unfold last_loading. rewrite rev_unit. cbn.
  destruct (is_result c); reflexivity.
Qed.

(** The three slots of the coordinator are decided by the last calls alone,
    whoever makes them and in whatever order.  The last report (a pipeline or
    an error) fills its own slot and empties the other; without any report
    both slots are as they were.  The loading flag is the argument of the
    last loading call.  The form and the record of calls are not touched. *)
Theorem slots_follow_last_calls (cs : list Callback) (w : World) :
  pipeline (run cs w) =
    match last_result cs with
    | Some (PipelineGenerated v) => v
    | Some _ => JNull
    | None => pipeline w
    end /\
  error (run cs w) =
    match last_result cs with
    | Some (ErrorReported v) => v
    | Some _ => JNull
    | None => error w
    end /\
  loading (run cs w) =
    match last_loading cs with
    | Some (LoadingChanged b) => b
    | _ => loading w
    end /\
  formData (run cs w) = formData w /\
  calls (run cs w) = calls w.
Proof.
  induction cs as [|c cs IH] using rev_ind.
  - repeat split.
  - destruct IH as (Hp & He & Hl & Hf & Hc).
    rewrite run_snoc, last_result_snoc, last_loading_snoc.
    destruct c as [v|v|b]; cbn;
      rewrite ?Hp, ?He, ?Hl, ?Hf, ?Hc; repeat split.
Qed.

Lemma invoke_exclusive (c : Callback) (w : World) :
  exclusive w -> exclusive (snd (invoke c w)).
Proof.
  unfold exclusive. destruct c as [v|v|b]; cbn; intros H;
    [right | left | exact H]; reflexivity.
Qed.

Lemma run_exclusive (cs : list Callback) (w : World) :
  exclusive w -> exclusive (run cs w).
Proof.
  revert w. induction cs as [|c cs IH]; intros w H; cbn; [exact H|].
  apply IH, invoke_exclusive, H.
Qed.

Lemma exclusive_view (w : World) :
  exclusive w ->
  App.error_box (App.view w) = None \/ App.visualizer (App.view w) = None.
Proof.
  intros [H | H]; [right | left]; cbn; rewrite H; reflexivity.
Qed.

(** Whatever calls the callbacks and in whatever order, starting from the
    mounted application: the coordinator never holds a pipeline and an error
    together, so the error box and the visualizer are never both displayed;
    and the visualizer is never displayed while the loading flag is on. *)
Theorem error_and_pipeline_never_together (cs : list Callback) :
  (pipeline (run cs mount) = JNull \/ error (run cs mount) = JNull) /\
  (App.error_box (App.view (run cs mount)) = None \/
   App.visualizer (App.view (run cs mount)) = None) /\
  (loading (run cs mount) = true ->
   App.visualizer (App.view (run cs mount)) = None).
Proof.
  assert (H : exclusive (run cs mount)) by (apply run_exclusive; left; reflexivity).
  split; [exact H|].
  split; [apply exclusive_view; exact H|].
  intros Hl. cbn. rewrite Hl. rewrite andb_false_r. reflexivity.
Qed.

End CoordinatorClaims.

(* ===================================================================== *)
(** ** Requests that overlap *)
(* ===================================================================== *)

Section AsyncClaims.

Import RepositoryForm Fields Async.

Lemma begin_invalid (op : Operation) (w : World) :
  nothing_provided (formData w) = true ->
  begin (spy App.props) op w = (Normal None, invalid_world op w).
Proof.
  intros Hv.
  destruct op; unfold begin, bind, gets; cbn; rewrite Hv; cbn;
    unfold invalid_world; world_eq.
Qed.

Lemma begin_valid (op : Operation) (w : World) :
  nothing_provided (formData w) = false ->
  begin (spy App.props) op w =
    (Normal (Some (mkRequest op (formData w))), begun_world op w).
Proof.
  intros Hv.
  destruct op; unfold begin, bind, gets; cbn; rewrite Hv; cbn;
    unfold begun_world; world_eq.
Qed.

Lemma resume_run (op : Operation) (result : NetResult) (w : World) :
  snd (resume (spy App.props) op result w) = resumed_world op result w.
Proof.
  destruct result as [data|err].
  - destruct op; unfold resume, try_catch_finally, awaited, setFormData, bind,
      lift; cbn -[analysis_updater].
    + world_eq.
    + destruct (analysis_updater data (formData w)); world_eq.
  - unfold resumed_world.
    destruct (nullish err) eqn:Hn.
    + destruct err; try discriminate;
        destruct op; unfold resume, try_catch_finally, awaited, bind, lift;
        cbn; world_eq.
    + pose proof (errorMessage_resolved op err Hn) as Hmsg.
      destruct op; cbn [fallback_message] in Hmsg;
        unfold resume, try_catch_finally, awaited, bind, lift;
        cbn -[errorMessage]; rewrite Hmsg; cbn; world_eq.
Qed.

(** A click whose request settles before anything else happens does what the
    handler does when it is run in one piece against a backend that gives
    that answer: the same state, and nothing left in flight. *)
Theorem click_then_settle_is_the_handler
        (op : Operation) (net : Network) (w : World) :
  let answer := net (endpoint op) (formData w) in
  world (run [Click op; Settle 0 answer] (mkSession w [])) = after op net w /\
  in_flight (run [Click op; Settle 0 answer] (mkSession w [])) = [].
Proof.
  cbn -[begin resume].
  destruct (nothing_provided (formData w)) eqn:Hv.
  - rewrite (begin_invalid op w Hv); cbn.
    unfold after. rewrite (submit_invalid op net w Hv). split; reflexivity.
  - rewrite (begin_valid op w Hv); cbn -[resume].
    rewrite resume_run. split; [|reflexivity].
    unfold after.
    destruct (net (endpoint op) (formData w)) as [data|err] eqn:Hnet.
    + destruct op.
      * rewrite (generate_resolved net w data Hv Hnet).
        unfold resumed_world, begun_world, generated_world; world_eq.
      * rewrite (analyze_resolved net w data Hv Hnet).
        unfold resumed_world, begun_world, analyzed_world; cbn -[analysis_updater].
        destruct (analysis_updater data (formData w)); world_eq.
    + destruct (nullish err) eqn:Hn.
      * unfold resumed_world; rewrite Hn.
        destruct (submit_rejected_nullish op net w err Hv Hnet Hn)
          as (Hc & Hf & Hp).
        unfold after in *.
        destruct err; try discriminate;
          destruct op; cbn [endpoint] in Hnet;
          unfold submit, App.submitGenerate, App.submitAnalyze,
            handleSubmit, handleAnalyze, try_catch_finally, axios_post, bind,
            gets, lift; cbn; rewrite Hv; cbn; rewrite Hnet; cbn;
          unfold begun_world; world_eq.
      * rewrite (submit_rejected op net w err Hv Hnet Hn).
        unfold resumed_world, begun_world, rejected_world; rewrite Hn; world_eq.
Qed.

Lemma run_cons (e : Event) (es : list Event) (s : Session) :
  run (e :: es) s = run es (step e s).
Proof. reflexivity. Qed.

Lemma run_app (es es' : list Event) (s : Session) :
  run (es ++ es') s = run es' (run es s).
Proof. unfold run. apply fold_left_app. Qed.

Lemma click_invalid (op : Operation) (s : Session) :
  nothing_provided (formData (world s)) = true ->
  step (Click op) s = mkSession (invalid_world op (world s)) (in_flight s).
Proof. intros Hv. cbn -[begin]. rewrite (begin_invalid op _ Hv). reflexivity. Qed.

Lemma click_valid (op : Operation) (s : Session) :
  nothing_provided (formData (world s)) = false ->
  step (Click op) s =
    mkSession (begun_world op (world s))
              (in_flight s ++ [mkRequest op (formData (world s))]).
Proof. intros Hv. cbn -[begin]. rewrite (begin_valid op _ Hv). reflexivity. Qed.

Lemma settle_in_flight (n : nat) (result : NetResult) (s : Session)
      (request : Request) :
  nth_error (in_flight s) n = Some request ->
  step (Settle n result) s =
    mkSession (resumed_world (request_op request) result (world s))
              (remove_nth n (in_flight s)).
Proof. intros Hn. cbn -[resume]. rewrite Hn, resume_run. reflexivity. Qed.

Lemma remove_nth_length {A : Type} (n : nat) (l : list A) (x : A) :
  nth_error l n = Some x -> List.length l = S (List.length (remove_nth n l)).
Proof.
  revert n. induction l as [|y rest IH]; intros n H.
  - destruct n; discriminate.
  - destruct n as [|n]; cbn in *; [reflexivity|].
    rewrite (IH n H). reflexivity.
Qed.

Lemma resumed_loading_calls (op : Operation) (result : NetResult) (w : World) :
  loading_calls (calls (resumed_world op result w)) =
    loading_calls (calls w) ++ [false].
Proof.
  unfold resumed_world.
  destruct result as [data|err];
    [destruct op; [|destruct (analysis_updater data (formData w))]
    |destruct (nullish err)];
    cbn; rewrite loading_calls_app; reflexivity.
Qed.

Lemma resumed_post_calls (op : Operation) (result : NetResult) (w : World) :
  post_calls (calls (resumed_world op result w)) = post_calls (calls w).
Proof.
  unfold resumed_world.
  destruct result as [data|err];
    [destruct op; [|destruct (analysis_updater data (formData w))]
    |destruct (nullish err)];
    cbn; rewrite post_calls_app; cbn; apply app_nil_r.
Qed.

Lemma resumed_loading (op : Operation) (result : NetResult) (w : World) :
  loading (resumed_world op result w) = false.
Proof.
  unfold resumed_world.
  destruct result as [data|err];
    [destruct op; [|destruct (analysis_updater data (formData w))]
    |destruct (nullish err)]; reflexivity.
Qed.

Lemma resumed_exclusive (op : Operation) (result : NetResult) (w : World) :
  exclusive w -> exclusive (resumed_world op result w).
Proof.
  unfold resumed_world, exclusive. intros H.
  destruct result as [data|err];
    [destruct op; [|destruct (analysis_updater data (formData w))]
    |destruct (nullish err)]; cbn; auto.
Qed.

Lemma told_app (b : bool) (l l' : list bool) :
  count_occ Bool.bool_dec (l ++ l') b =
    (count_occ Bool.bool_dec l b + count_occ Bool.bool_dec l' b)%nat.
Proof. apply count_occ_app. Qed.

Lemma step_invariant (e : Event) (s : Session) :
  settled_invariant s -> settled_invariant (step e s).
Proof.
  intros (Hspin & Hex & Hposts & Hbal).
  destruct e as [target value | op | n result].
  - (* an edit *)
    cbn. unfold settled_invariant, told, exclusive in *; cbn.
    repeat split; assumption.
  - (* a click *)
    destruct (nothing_provided (formData (world s))) eqn:Hv.
    + rewrite (click_invalid op s Hv).
      unfold settled_invariant, told, exclusive in *; cbn.
      rewrite loading_calls_app, post_calls_app; cbn. rewrite !app_nil_r.
      repeat split; try assumption. left; reflexivity.
    + rewrite (click_valid op s Hv).
      unfold settled_invariant, told, exclusive in *; cbn.
      rewrite loading_calls_app, post_calls_app, !told_app; cbn.
      rewrite !length_app; cbn.
      repeat split; try assumption.
      * intros _ H. destruct (in_flight s); discriminate.
      * lia.
      * lia.
  - (* a settlement *)
    destruct (nth_error (in_flight s) n) as [request|] eqn:Hn.
    + rewrite (settle_in_flight n result s request Hn).
      pose proof (remove_nth_length n (in_flight s) request Hn) as Hlen.
      unfold settled_invariant, told in *; cbn.
      rewrite resumed_loading_calls, resumed_post_calls, resumed_loading,
        !told_app; cbn.
      repeat split.
      * discriminate.
      * apply resumed_exclusive; assumption.
      * lia.
      * lia.
    + cbn. rewrite Hn. repeat split; assumption.
Qed.

Lemma run_invariant (es : list Event) (s : Session) :
  settled_invariant s -> settled_invariant (run es s).
Proof.
  revert s. induction es as [|e es IH]; intros s H; [exact H|].
  rewrite run_cons. apply IH, step_invariant, H.
Qed.

Lemma start_invariant : settled_invariant start.
Proof.
  repeat split; try reflexivity.
  - discriminate.
  - left; reflexivity.
Qed.

(** Whatever the user does and in whatever order the requests settle, from
    the mounted application on: when no request is in flight the loading flag
    is off, so the spinner is only ever shown while a request is in flight;
    the coordinator never holds a pipeline and an error together, so the
    error box and the visualizer are never both displayed. *)
Theorem spinner_needs_a_request (es : list Event) :
  (in_flight (run es start) = [] -> loading (world (run es start)) = false) /\
  (pipeline (world (run es start)) = JNull \/
   error (world (run es start)) = JNull) /\
  (App.error_box (App.view (world (run es start))) = None \/
   App.visualizer (App.view (world (run es start))) = None).
Proof.
  destruct (run_invariant es start start_invariant) as (Hspin & Hex & _ & _).
  split; [|split].
  - intros Hnone.
    destruct (loading (world (run es start))) eqn:Hl; [|reflexivity].
    exfalso. exact (Hspin eq_refl Hnone).
  - exact Hex.
  - destruct Hex as [H | H]; [right | left]; cbn; rewrite H; reflexivity.
Qed.

(** Whatever the user does and in whatever order the requests settle, from
    the mounted application on: the loading observer was told [true] once for
    each request made, and [false] once for each request that has settled;
    when no request is in flight it was told [false] as often as [true]. *)
Theorem requests_are_accounted (es : list Event) :
  told true (world (run es start)) =
    List.length (post_calls (calls (world (run es start)))) /\
  told true (world (run es start)) =
    (told false (world (run es start)) +
     List.length (in_flight (run es start)))%nat /\
  (in_flight (run es start) = [] ->
   told false (world (run es start)) = told true (world (run es start))).
Proof.
  destruct (run_invariant es start start_invariant) as (_ & _ & Hposts & Hbal).
  split; [exact Hposts|]. split; [exact Hbal|].
  intros Hnone. rewrite Hbal, Hnone; cbn. lia.
Qed.

Lemma run_edits (edits : list (Input * string)) (w : World)
      (pending : list Request) :
  run (edit_events edits) (mkSession w pending) =
    mkSession (with_formData (edited edits (formData w)) w) pending.
Proof.
  revert w. induction edits as [|[i v] rest IH]; intros w.
  - destruct w; reflexivity.
  - cbn [edit_events map]. rewrite run_cons. cbn [step world in_flight fst snd].
    rewrite handleChange_run. cbn [snd].
    fold (edit_events rest). rewrite IH. reflexivity.
Qed.

(** An analyze request carries the form as it was at the click, and its
    answer is written over the form as it is when the answer arrives: texts
    typed into the URL and content fields while the request was in flight are
    kept, and whatever was typed into the language and framework fields
    meanwhile is replaced by [data.language || ''] and
    [data.framework || '']. *)
Theorem edits_during_analyze_survive
        (w : World) (edits : list (Input * string)) (data l fw : JsVal) :
  nothing_provided (formData w) = false ->
  get data "language" = Normal l ->
  get data "framework" = Normal fw ->
  let s := run (Click Analyze :: edit_events edits ++ [Settle 0 (Resolved data)])
               (mkSession w []) in
  formData (world s) =
    mkFormState (repository_url (edited edits (formData w)))
                (repository_content (edited edits (formData w)))
                (js_or l (JStr "")) (js_or fw (JStr "")) /\
  post_calls (calls (world s)) =
    post_calls (calls w) ++ [(endpoint Analyze, formData w)] /\
  in_flight s = [].
Proof.
  intros Hv Hl Hfw s. unfold s.
  rewrite run_cons, run_app.
  rewrite (click_valid Analyze (mkSession w []) Hv). cbn [world in_flight app].
  rewrite run_edits.
  rewrite run_cons.
  erewrite settle_in_flight by reflexivity.
  cbn [run fold_left world in_flight remove_nth request_op].
  unfold resumed_world, analysis_updater, cbind; cbn -[edited].
  rewrite Hl, Hfw; cbn -[edited].
  rewrite post_calls_app; cbn. rewrite post_calls_app; cbn.
  rewrite <- app_assoc; cbn.
  repeat split.
Qed.

Lemma typed_url_survives_analysis :
  formData
    (world
       (run [ Click Analyze;
              Edit url_input "https://github.com/user/other";
              Edit language_input "Go";
              Settle 0 (Resolved (JObj [("language", JStr "Python")])) ]
            (mkSession (with_formData sample_form mount) []))) =
    mkFormState "https://github.com/user/other" "" (JStr "Python") (JStr "").
Proof.
  exact (proj1 (edits_during_analyze_survive
                  (with_formData sample_form mount)
                  [(url_input, "https://github.com/user/other");
                   (language_input, "Go")]
                  (JObj [("language", JStr "Python")])
                  (JStr "Python") JUndefined
                  eq_refl eq_refl eq_refl)).
Defined.

(** The loading flag is a flag, not a count: with two requests in flight, the
    first settlement turns the flag off (whatever the answer and whichever
    the operations) although the second request is still in flight. *)
Theorem spinner_stops_at_first_settlement
        (w : World) (op1 op2 : Operation) (result : NetResult) :
  nothing_provided (formData w) = false ->
  let s := run [Click op1; Click op2; Settle 0 result] (mkSession w []) in
  loading (world s) = false /\
  in_flight s = [mkRequest op2 (formData w)] /\
  App.spinner (App.view (world s)) = false.
Proof.
  intros Hv s. unfold s.
  rewrite !run_cons.
  rewrite (click_valid op1 (mkSession w []) Hv). cbn [world in_flight app].
  rewrite click_valid by exact Hv. cbn [world in_flight app].
  erewrite settle_in_flight by reflexivity.
  cbn [run fold_left world in_flight remove_nth request_op begun_world formData].
  unfold App.view; cbn [App.spinner].
  rewrite resumed_loading. repeat split.
Qed.

Lemma spinner_stops_while_analysis_runs :
  let s := run [Click Generate; Click Analyze; Settle 0 (Resolved empty_pipeline)]
               (mkSession (with_formData sample_form mount) []) in
  loading (world s) = false /\
  in_flight s = [mkRequest Analyze sample_form] /\
  App.spinner (App.view (world s)) = false.
Proof.
  exact (spinner_stops_at_first_settlement (with_formData sample_form mount)
           Generate Analyze (Resolved empty_pipeline) eq_refl).
Defined.

(** Of two generate requests in flight, the one answered last decides the
    pipeline the coordinator holds, whichever was made first. *)
Theorem last_response_wins (w : World) (first second : JsVal) :
  nothing_provided (formData w) = false ->
  pipeline (world (run [ Click Generate; Click Generate;
                         Settle 0 (Resolved first); Settle 0 (Resolved second) ]
                      (mkSession w []))) = second /\
  pipeline (world (run [ Click Generate; Click Generate;
                         Settle 1 (Resolved second); Settle 0 (Resolved first) ]
                      (mkSession w []))) = first.
Proof.
  intros Hv.
  rewrite !run_cons.
  rewrite (click_valid Generate (mkSession w []) Hv). cbn [world in_flight app].
  rewrite click_valid by exact Hv. cbn [world in_flight app].
  split.
  - erewrite settle_in_flight by reflexivity.
    cbn [world in_flight remove_nth].
    erewrite settle_in_flight by reflexivity.
    reflexivity.
  - erewrite settle_in_flight by reflexivity.
    cbn [world in_flight remove_nth].
    erewrite settle_in_flight by reflexivity.
    reflexivity.
Qed.

Lemma last_response_wins_sample :
  pipeline (world (run [ Click Generate; Click Generate;
                         Settle 1 (Resolved empty_pipeline);
                         Settle 0 (Resolved (JObj [])) ]
                      (mkSession (with_formData sample_form mount) []))) =
    JObj [].
Proof.
  exact (proj2 (last_response_wins (with_formData sample_form mount)
                  (JObj []) empty_pipeline eq_refl)).
Defined.

End AsyncClaims.

(* ===================================================================== *)
(** ** What the renderer displays, and when it throws *)
(* ===================================================================== *)

Section RendererEdges.

Import Visualizer.

Lemma stage_icon_normal (type : string) (st : Store) :
  exists v, stage_icon type st = (Normal v, st).
Proof.
  unfold stage_icon, read_stageIcons, bind, gets, ret.
  destruct (icon_truthy _); eexists; reflexivity.
Qed.

Lemma get_not_nullish (v x : JsVal) (name : string) :
  get v name = Normal x -> nullish v = false.
Proof. destruct v; cbn; try discriminate; reflexivity. Qed.

Lemma render_stage_ok (stage : JsVal) (st : Store) :
  stage_ok stage -> exists node, render_stage stage st = (Normal node, st).
Proof.
  intros (t & cs & ts & Ht & Hc & Hts).
  pose proof (get_not_nullish stage _ _ Ht) as Hn.
  destruct (get_total stage "name" Hn) as [name Hname].
  destruct (get_total stage "description" Hn) as [description Hd].
  destruct (get_total stage "estimatedDuration" Hn) as [duration Hdur].
  destruct (stage_icon_normal t st) as [icon Hicon].
  unfold render_stage, bind, lift, cbind.
  rewrite Ht, Hicon, Hname, Hd, Hc, Hts, Hdur; cbn.
  eexists; reflexivity.
Qed.

Lemma render_stage_needs_ok (stage : JsVal) (st : Store) (node : Node) :
  fst (render_stage stage st) = Normal node -> stage_ok stage.
Proof.
  unfold render_stage, bind, lift, cbind, stage_ok.
  destruct (get stage "type") as [type|]; [|discriminate].
  destruct type as [ | | b | n | t | l | o ]; try discriminate.
  destruct (stage_icon_normal t st) as [icon ->].
  destruct (get stage "name"); [|discriminate].
  destruct (get stage "description"); [|discriminate].
  destruct (get stage "commands") as [commands|]; [|discriminate].
  destruct commands as [ | | b | n | x | cs | o ]; try discriminate.
  destruct (get stage "tools") as [tools|]; [|discriminate].
  destruct tools as [ | | b | n | x | ts | o ]; try discriminate.
  intros _. exists t, cs, ts. repeat split.
Qed.

Lemma map_M_stages_ok (items : list JsVal) (st : Store) :
  Forall stage_ok items ->
  exists nodes, map_M render_stage items st = (Normal nodes, st) /\
                List.length nodes = List.length items.
Proof.
  induction 1 as [|stage rest Hok _ (nodes & Hrun & Hlen)]; cbn.
  - exists []. split; reflexivity.
  - destruct (render_stage_ok stage st Hok) as [node Hnode].
    unfold bind. rewrite Hnode, Hrun. cbn.
    exists (node :: nodes). split; [reflexivity | cbn; now rewrite Hlen].
Qed.

Lemma render_summary_ok (gt : JsVal -> Completion bool)
      (fields : list (string * JsVal)) :
  recommendations_ok (JObj fields) ->
  exists summary, render_summary gt (JObj fields) = Normal summary.
Proof.
  intros Hok. unfold render_summary, render_recommendations, cbind; cbn.
  destruct (assoc "summary" fields) as [s|]; cbn;
    [destruct (truthy s); cbn; [|eexists; reflexivity] | eexists; reflexivity].
  unfold recommendations_ok, field in Hok.
  destruct (assoc "recommendations" fields) as [r|]; cbn;
    [|eexists; reflexivity].
  destruct (Hok r eq_refl) as [Hfalsy | [rs ->]].
  - rewrite Hfalsy; cbn. eexists; reflexivity.
  - cbn. destruct (Z.ltb 0 (Z.of_nat (List.length rs))); cbn;
      eexists; reflexivity.
Qed.

(** A document of the specified type is always displayed: when [stages] is an
    array of stages whose [type] is a string and whose [commands] and [tools]
    are arrays, and [recommendations] is missing, falsy or an array, the
    component does not throw; it returns the pipeline container, whose card
    holds the heading and as many entries as there are stages. *)
Theorem well_typed_document_renders
        (gt : JsVal -> Completion bool) (st : Store)
        (fields : list (string * JsVal)) (items : list JsVal) :
  assoc "stages" fields = Some (JArr items) ->
  Forall stage_ok items ->
  recommendations_ok (JObj fields) ->
  exists nodes summary,
    fst (PipelineVisualizer gt (JObj fields) st) =
      Normal (Some
        (Element "div" (Some "pipeline-container")
           [ Element "div" (Some "card")
               [ Element "h2" None [Text "Generated Test Pipeline"];
                 Items nodes ];
             summary ])) /\
    List.length nodes = List.length items.
Proof.
  intros Hs Hstages Hrec.
  destruct (map_M_stages_ok items st Hstages) as (nodes & Hrun & Hlen).
  destruct (render_summary_ok gt fields Hrec) as [summary Hsum].
  exists nodes, summary. split; [|exact Hlen].
  unfold PipelineVisualizer, bind, lift; cbn -[render_summary].
  rewrite Hs; cbn -[render_summary]. rewrite Hrun, Hsum. reflexivity.
Qed.

Lemma sample_stage_ok (type : string) : stage_ok (sample_stage type).
Proof.
  exists type, [JStr "echo hello"], [JStr "CustomTool"]. repeat split.
Qed.

Lemma sample_document_renders :
  exists nodes summary,
    fst (PipelineVisualizer never_positive
           (JObj [("stages", JArr [sample_stage "custom_type";
                                   sample_stage "security_test"])])
           module_init) =
      Normal (Some
        (Element "div" (Some "pipeline-container")
           [ Element "div" (Some "card")
               [ Element "h2" None [Text "Generated Test Pipeline"];
                 Items nodes ];
             summary ])) /\
    List.length nodes = 2%nat.
Proof.
  refine (well_typed_document_renders never_positive module_init
            [("stages", JArr [sample_stage "custom_type";
                              sample_stage "security_test"])]
            [sample_stage "custom_type"; sample_stage "security_test"]
            eq_refl _ _).
  - repeat constructor; apply sample_stage_ok.
  - intros r H. discriminate H.
Defined.

(** One stage the renderer cannot display is enough to lose the whole
    display: when the array [stages] holds a stage whose [type] is not a
    string, or whose [commands] or [tools] is not an array, the component
    throws, whatever the other stages are. *)
Theorem malformed_stage_breaks_render
        (gt : JsVal -> Completion bool) (st : Store)
        (fields : list (string * JsVal)) (items : list JsVal) (stage : JsVal) :
  assoc "stages" fields = Some (JArr items) ->
  In stage items ->
  ~ stage_ok stage ->
  exists e, fst (PipelineVisualizer gt (JObj fields) st) = Throw e.
Proof.
  intros Hs Hin Hbad.
  unfold PipelineVisualizer, bind, lift; cbn -[render_summary].
  rewrite Hs; cbn -[render_summary].
  destruct (map_M render_stage items st) as [[nodes|e] st'] eqn:Hrun;
    [|eexists; reflexivity].
  exfalso.
  pose proof (map_M_in_order render_stage items st st' nodes
                read_only_render_stage Hrun) as Hall.
  clear Hrun Hs. induction Hall as [|x node xs ys Hx _ IH]; [contradiction|].
  destruct Hin as [<- | Hin].
  - apply Hbad. exact (render_stage_needs_ok x st node Hx).
  - exact (IH Hin).
Qed.

Lemma stage_without_commands_breaks_render :
  exists e,
    fst (PipelineVisualizer never_positive
           (JObj [("stages",
                   JArr [sample_stage "code_quality";
                         JObj [("name", JStr "Lint"); ("type", JStr "code_quality")]])])
           module_init) = Throw e.
Proof.
  refine (malformed_stage_breaks_render never_positive module_init
            [("stages",
              JArr [sample_stage "code_quality";
                    JObj [("name", JStr "Lint"); ("type", JStr "code_quality")]])]
            [sample_stage "code_quality";
             JObj [("name", JStr "Lint"); ("type", JStr "code_quality")]]
            (JObj [("name", JStr "Lint"); ("type", JStr "code_quality")])
            eq_refl (or_intror (or_introl eq_refl)) _).
  intros (t & cs & ts & _ & Hc & _). discriminate Hc.
Defined.

(** A [stages] that is there and truthy without being an array (a string, a
    number, an object) is not taken for a missing pipeline: the component
    throws where it calls [pipeline.stages.map]. *)
Theorem stages_must_be_an_array
        (gt : JsVal -> Completion bool) (st : Store) (p stages : JsVal) :
  truthy p = true ->
  get p "stages" = Normal stages ->
  truthy stages = true ->
  (forall items, stages <> JArr items) ->
  exists e, fst (PipelineVisualizer gt p st) = Throw e.
Proof.
  intros Hp Hs Ht Hna.
  unfold PipelineVisualizer, bind, lift. rewrite Hp; cbn. rewrite Hs, Ht; cbn.
  destruct stages as [ | | b | n | x | items | o ]; try discriminate;
    try (eexists; reflexivity).
  contradiction (Hna items eq_refl).
Qed.

Lemma stages_given_as_text_throw :
  exists e,
    fst (PipelineVisualizer never_positive (JObj [("stages", JStr "build, test")])
           module_init) = Throw e.
Proof.
  refine (stages_must_be_an_array never_positive module_init
            (JObj [("stages", JStr "build, test")])
            (JStr "build, test") eq_refl eq_refl eq_refl _).
  intros items H. discriminate H.
Defined.

Lemma get_stages (fields : list (string * JsVal)) (items : list JsVal) :
  assoc "stages" fields = Some (JArr items) ->
  get (JObj fields) "stages" = Normal (JArr items).
Proof. intros H. cbn. rewrite H. reflexivity. Qed.

Lemma rendered_tree (gt : JsVal -> Completion bool) (st : Store)
      (fields : list (string * JsVal)) (items : list JsVal) (tree : Node) :
  assoc "stages" fields = Some (JArr items) ->
  fst (PipelineVisualizer gt (JObj fields) st) = Normal (Some tree) ->
  exists nodes summary,
    render_summary gt (JObj fields) = Normal summary /\
    tree = Element "div" (Some "pipeline-container")
             [ Element "div" (Some "card")
                 [ Element "h2" None [Text "Generated Test Pipeline"];
                   Items nodes ];
               summary ].
Proof.
  intros Hs.
  unfold PipelineVisualizer, bind, lift; cbn -[render_summary].
  rewrite Hs; cbn -[render_summary].
  destruct (map_M render_stage items st) as [[nodes|e] st']; cbn -[render_summary];
    [|discriminate].
  destruct (render_summary gt (JObj fields)) as [summary|e]; cbn; [|discriminate].
  intros [= <-]. exists nodes, summary. split; reflexivity.
Qed.

(** Recommendations are displayed inside the summary section only: when the
    [summary] of a document is missing or falsy, the display ends with the
    card of stages and has no summary section, whatever [recommendations]
    holds (it is not even read). *)
Theorem recommendations_need_a_summary
        (gt : JsVal -> Completion bool) (st : Store)
        (fields : list (string * JsVal)) (items : list JsVal)
        (summary : JsVal) (tree : Node) :
  assoc "stages" fields = Some (JArr items) ->
  get (JObj fields) "summary" = Normal summary ->
  truthy summary = false ->
  fst (PipelineVisualizer gt (JObj fields) st) = Normal (Some tree) ->
  exists nodes,
    tree = Element "div" (Some "pipeline-container")
             [ Element "div" (Some "card")
                 [ Element "h2" None [Text "Generated Test Pipeline"];
                   Items nodes ];
               Value summary ].
Proof.
  intros Hs Hsum Hfalsy Htree.
  destruct (rendered_tree gt st fields items tree Hs Htree)
    as (nodes & child & Hchild & ->).
  exists nodes.
  unfold render_summary, cbind in Hchild. rewrite Hsum, Hfalsy in Hchild.
  cbn in Hchild. injection Hchild as <-. reflexivity.
Qed.

Lemma recommendations_without_summary_are_dropped :
  exists nodes,
    Element "div" (Some "pipeline-container")
      [ Element "div" (Some "card")
          [ Element "h2" None [Text "Generated Test Pipeline"]; Items [] ];
        Value JNull ] =
    Element "div" (Some "pipeline-container")
      [ Element "div" (Some "card")
          [ Element "h2" None [Text "Generated Test Pipeline"]; Items nodes ];
        Value JNull ].
Proof.
  exact (recommendations_need_a_summary never_positive module_init
           [("stages", JArr []); ("summary", JNull);
            ("recommendations", JArr [JStr "Add caching"])]
           [] JNull _ eq_refl eq_refl eq_refl eq_refl).
Defined.

(** With a summary and an array of recommendations, the summary section holds
    its heading, the summary, and the recommendations as a list in the order
    of the document; for an empty array it holds no list and no
    'Recommendations' heading (the child is [false]). *)
Theorem summary_section_lists_recommendations
        (gt : JsVal -> Completion bool) (st : Store)
        (fields : list (string * JsVal)) (items recs : list JsVal)
        (summary : JsVal) (tree : Node) :
  assoc "stages" fields = Some (JArr items) ->
  assoc "summary" fields = Some summary ->
  truthy summary = true ->
  assoc "recommendations" fields = Some (JArr recs) ->
  fst (PipelineVisualizer gt (JObj fields) st) = Normal (Some tree) ->
  exists nodes,
    tree = Element "div" (Some "pipeline-container")
             [ Element "div" (Some "card")
                 [ Element "h2" None [Text "Generated Test Pipeline"];
                   Items nodes ];
               Element "div" (Some "summary-section")
                 [ Element "h3" None [Text "Pipeline Summary"];
                   Element "p" None [Value summary];
                   match recs with
                   | [] => Value (JBool false)
                   | _ :: _ =>
                       Element "div" (Some "recommendations")
                         [ Element "h4" None [Text "Recommendations"];
                           Element "ul" None
                             [Items (map (fun r => Element "li" None [Value r])
                                         recs)] ]
                   end ] ].
Proof.
  intros Hs Hsum Ht Hrecs Htree.
  destruct (rendered_tree gt st fields items tree Hs Htree)
    as (nodes & child & Hchild & ->).
  exists nodes.
  unfold render_summary, render_recommendations, cbind in Hchild.
  cbn in Hchild. rewrite Hsum, Ht, Hrecs in Hchild. cbn in Hchild.
  destruct recs as [|r rest]; cbn in Hchild; injection Hchild as <-; reflexivity.
Qed.

Lemma summary_section_of_the_sample :
  exists nodes,
    Element "div" (Some "pipeline-container")
      [ Element "div" (Some "card")
          [ Element "h2" None [Text "Generated Test Pipeline"]; Items [] ];
        Element "div" (Some "summary-section")
          [ Element "h3" None [Text "Pipeline Summary"];
            Element "p" None [Value (JStr "This pipeline runs unit tests.")];
            Element "div" (Some "recommendations")
              [ Element "h4" None [Text "Recommendations"];
                Element "ul" None
                  [Items [ Element "li" None [Value (JStr "Add caching")];
                           Element "li" None [Value (JStr "Parallelize stages")] ]] ] ] ] =
    Element "div" (Some "pipeline-container")
      [ Element "div" (Some "card")
          [ Element "h2" None [Text "Generated Test Pipeline"]; Items nodes ];
        Element "div" (Some "summary-section")
          [ Element "h3" None [Text "Pipeline Summary"];
            Element "p" None [Value (JStr "This pipeline runs unit tests.")];
            Element "div" (Some "recommendations")
              [ Element "h4" None [Text "Recommendations"];
                Element "ul" None
                  [Items [ Element "li" None [Value (JStr "Add caching")];
                           Element "li" None [Value (JStr "Parallelize stages")] ]] ] ] ].
Proof.
  exact (summary_section_lists_recommendations never_positive module_init
           [("stages", JArr []);
            ("summary", JStr "This pipeline runs unit tests.");
            ("recommendations", JArr [JStr "Add caching"; JStr "Parallelize stages"])]
           [] [JStr "Add caching"; JStr "Parallelize stages"]
           (JStr "This pipeline runs unit tests.") _
           eq_refl eq_refl eq_refl eq_refl eq_refl).
Defined.




End RendererEdges.

Section CoordinatorSamples.

Import Coordinator.

(** The pipeline arrives while the loading flag is on: it is displayed once
    the flag is turned off, not before. *)
Lemma pipeline_waits_for_loading :
  App.visualizer
    (App.view (run [LoadingChanged true; PipelineGenerated empty_pipeline] mount))
    = None /\
  App.visualizer
    (App.view (run [ LoadingChanged true; PipelineGenerated empty_pipeline;
                     LoadingChanged false ] mount))
    = Some empty_pipeline.
Proof.
  split; [|reflexivity].
  exact (proj2 (proj2 (error_and_pipeline_never_together
                         [LoadingChanged true; PipelineGenerated empty_pipeline]))
               eq_refl).
Defined.

End CoordinatorSamples.
